(** * EV Predictive Maintenance dashboard: a shallow embedding

    The development follows [updated_app_test2.py] from top to bottom:
    the model loader, the sidebar controls and the single-row record built
    from them, the upload tab, the prediction tab and the live sensor
    console.

    Python floats are IEEE binary64 numbers and are modelled by Rocq's
    primitive floats, so that every comparison, division and truncation
    below evaluates to the very value the interpreter computes.  Streamlit
    calls are modelled by the events they put on the page, in order, and
    Python exceptions by an explicit [Raise] outcome.  The one exception
    is the live console, whose random draws are reasoned about over the
    rationals (see [Live]). *)

From Stdlib Require Import ZArith QArith Qround Qabs Lqa List String Bool Lia Floats Uint63.
Import ListNotations.

(* Decimal literals such as 0.5 and 0.1 denote the nearest binary64 value,
   as they do in Python. *)
Set Warnings "-inexact-float".

Local Open Scope Z_scope.

(** ** Python numbers *)

Module Py.

(** Exceptions carry the text that [str(e)] yields. *)
Definition exn : Type := string.

Inductive outcome (A : Type) : Type :=
| Ok (a : A)
| Raise (e : exn).
Arguments Ok {A} a.
Arguments Raise {A} e.

(** [float(z)] for a Python int.  The conversion is exact for magnitudes
    up to 2^53, which covers every integer control of the dashboard (the
    largest bound of a widget is 500000); it is not meant for magnitudes
    of 2^63 and more. *)
Definition float_of_Z (z : Z) : float :=
  match z with
  | Z0 => 0%float
  | Zpos _ => of_uint63 (Uint63.of_Z z)
  | Zneg p => (- of_uint63 (Uint63.of_Z (Zpos p)))%float
  end.

(** [a / b] on two Python ints with a non-zero constant divisor: true
    division.  Python rounds the exact quotient once; so does the division
    of the two floats as long as both conversions are exact. *)
Definition truediv (a b : Z) : float :=
  (float_of_Z a / float_of_Z b)%float.

(** [int(f)]: truncation toward zero; NaN and the infinities raise. *)
Definition py_int (f : float) : outcome Z :=
  match Prim2SF f with
  | S754_zero _ => Ok 0
  | S754_finite s m e =>
      let mag := if 0 <=? e then Zpos m * 2 ^ e else Zpos m / 2 ^ (- e) in
      Ok (if s then - mag else mag)
  | S754_infinity _ => Raise "cannot convert float infinity to integer"%string
  | S754_nan => Raise "cannot convert float NaN to integer"%string
  end.

(** The rational number a finite float stands for (0 for NaN and the
    infinities, which [py_int] rejects before any use of this value). *)
Definition Q_of_float (f : float) : Q :=
  match Prim2SF f with
  | S754_finite s m e =>
      let mag := if 0 <=? e then inject_Z (Zpos m * 2 ^ e)
                 else Qmake (Zpos m) (Z.to_pos (2 ^ (- e))) in
      if s then Qopp mag else mag
  | _ => 0%Q
  end.

(** Truncation toward zero on the rationals. *)
Definition Qtrunc (q : Q) : Z :=
  if Qle_bool 0 q then Qfloor q else Qceiling q.

Definition is_finite (f : float) : bool :=
  match Prim2SF f with
  | S754_zero _ | S754_finite _ _ _ => true
  | _ => false
  end.

End Py.
Export Py.

(** ** Data frames *)

(** A cell of a data frame: a Python int, a float or a string. *)
Inductive cell : Type :=
| CInt (z : Z)
| CFloat (f : float)
| CStr (s : string).

(** A frame is its column labels and its rows, each row listing one cell
    per column; the row index is the position ([ignore_index=True] and the
    default [RangeIndex] both number the rows from 0). *)
Record DataFrame : Type := mkDataFrame {
  columns : list string;
  rows : list (list cell)
}.

Fixpoint index_of (name : string) (l : list string) : option nat :=
  match l with
  | [] => None
  | x :: tl =>
      if String.eqb name x then Some O
      else option_map S (index_of name tl)
  end.

Definition mem (name : string) (l : list string) : bool :=
  existsb (String.eqb name) l.

(** [df.loc[i, name]]. *)
Definition df_at (df : DataFrame) (i : nat) (name : string) : option cell :=
  match index_of name (columns df), nth_error (rows df) i with
  | Some j, Some r => nth_error r j
  | _, _ => None
  end.

(** Every row has one cell per column. *)
Definition wf_frame (df : DataFrame) : Prop :=
  Forall (fun r => List.length r = List.length (columns df)) (rows df).

(** The cell pandas puts where a frame has no value for a column. *)
Definition NaN_cell : cell := CFloat nan.

(** One row re-read against another column list. *)
Definition reindex (from : list string) (to : list string) (r : list cell)
  : list cell :=
  map (fun c => match index_of c from with
                | Some j => nth j r NaN_cell
                | None => NaN_cell
                end) to.

(** [pd.concat([a, b], ignore_index=True)] on two frames: the columns are
    those of [a] followed by the new ones of [b] (outer join, unsorted),
    the rows of [a] come first and the rows of [b] after them, and a cell
    absent from a frame is NaN.  Dtype upcasting is not modelled: a cell
    keeps the value it had. *)
Definition pd_concat (a b : DataFrame) : DataFrame :=
  let cols := (columns a ++ filter (fun c => negb (mem c (columns a))) (columns b))%list in
  {| columns := cols;
     rows := (map (reindex (columns a) cols) (rows a)
              ++ map (reindex (columns b) cols) (rows b))%list |}.

(** [df.head()]: the first five rows. *)
Definition head (df : DataFrame) : DataFrame :=
  {| columns := columns df; rows := firstn 5 (rows df) |}.

(** ** The page: events and exceptions *)

(** What a Streamlit call leaves on the page. *)
Inductive shown : Type :=
| SInt (z : Z)                      (* f"{int(x)}" *)
| SFixed (digits : nat) (f : float) (* f"{x:.1f}" and the like *)
| SFloat (f : float).

Inductive event : Type :=
| EvSidebarError (msg : string)     (* st.sidebar.error *)
| EvSidebarHeader (text : string)   (* st.sidebar.header *)
| EvTitle (text : string)           (* st.title *)
| EvHeader (text : string)          (* st.header *)
| EvSuccess (msg : string)          (* st.success *)
| EvError (msg : string)            (* st.error *)
| EvDataframe (df : DataFrame)      (* st.dataframe *)
| EvMetric (label : string) (v : shown) (suffix : string)
| EvMarkdown (text : string)        (* st.markdown *)
| EvLine (label : string) (v : Z) (unit_ : string) (* st.write of a bullet *)
| EvBarChart (bars : list (string * float)). (* st.plotly_chart(px.bar) *)

(** A computation emits events and then returns or raises; the events
    emitted before a raise stay on the page. *)
Definition ui (A : Type) : Type := (list event * outcome A)%type.

Definition ret {A} (a : A) : ui A := ([], Ok a).

Definition bind {A B} (m : ui A) (k : A -> ui B) : ui B :=
  match m with
  | (l, Ok a) => let (l', r) := k a in ((l ++ l')%list, r)
  | (l, Raise e) => (l, Raise e)
  end.

Definition emit (ev : event) : ui unit := ([ev], Ok tt).

Definition lift {A} (o : outcome A) : ui A := ([], o).

(** [try: m except Exception as e: h e]. *)
Definition try_except {A} (m : ui A) (h : exn -> ui A) : ui A :=
  match m with
  | (l, Ok a) => (l, Ok a)
  | (l, Raise e) => let (l', r) := h e in ((l ++ l')%list, r)
  end.

Declare Scope ui_scope.
Delimit Scope ui_scope with ui.
Notation "x <- m ;; k" := (bind m (fun x => k))
  (at level 100, m at next level, right associativity) : ui_scope.
Notation "m ;; k" := (bind m (fun _ => k))
  (at level 100, right associativity) : ui_scope.

Definition events {A} (m : ui A) : list event := fst m.
Definition result {A} (m : ui A) : outcome A := snd m.

Definition is_error (ev : event) : bool :=
  match ev with
  | EvError _ => true
  | _ => false
  end.


(** ** Paths and the model artifact *)

Definition RUL_MODEL_PATH : string := "RUL_pipeline.pkl".
Definition FAILURE_MODEL_PATH : string := "Failure_Probability_pipeline.pkl".

(** A loaded pipeline is opaque: all the script uses of it is [predict]
    and [predict_proba], either of which may raise on a frame it does not
    accept.  [predict_proba] yields one (class 0, class 1) pair per row. *)
Record Model : Type := mkModel {
  predict : DataFrame -> outcome (list float);
  predict_proba : DataFrame -> outcome (list (float * float))
}.

(** Truthiness in [if rul_model and failure_model]: [None] is false, a
    loaded pipeline (which has at least one step) is true. *)
Definition truthy (m : option Model) : bool :=
  match m with
  | Some _ => true
  | None => false
  end.

(** A method call on a model variable; on [None] it is an
    [AttributeError]. *)
Definition call_predict (m : option Model) (d : DataFrame) : outcome (list float) :=
  match m with
  | Some model => predict model d
  | None => Raise "'NoneType' object has no attribute 'predict'"%string
  end.

Definition call_predict_proba (m : option Model) (d : DataFrame)
  : outcome (list (float * float)) :=
  match m with
  | Some model => predict_proba model d
  | None => Raise "'NoneType' object has no attribute 'predict_proba'"%string
  end.

(** ** Sidebar controls *)

(** The value of each of the 24 widgets.  A slider or number input built
    from int arguments returns an int, one built from float arguments a
    float. *)
Record controls : Type := mkControls {
  soc : Z;
  soh : Z;
  battery_voltage : Z;
  battery_current : Z;
  battery_temp : Z;
  charge_cycles : Z;
  motor_temp : Z;
  motor_vibration : float;
  motor_torque : float;
  motor_rpm : Z;
  power_consumption : float;
  brake_wear : Z;
  brake_pressure : float;
  reg_brake_eff : float;
  tire_pressure : Z;
  tire_temp : Z;
  suspension_load : float;
  ambient_temp : Z;
  ambient_humidity : Z;
  load_weight : float;
  driving_speed : float;
  distance_traveled : Z;
  idle_time : Z;
  route_roughness : float
}.

(** The third argument of every widget. *)
Definition default_controls : controls :=
  {| soc := 80; soh := 95; battery_voltage := 400; battery_current := 0;
     battery_temp := 30; charge_cycles := 150;
     motor_temp := 60; motor_vibration := 0.5; motor_torque := 100;
     motor_rpm := 2000; power_consumption := 50;
     brake_wear := 20; brake_pressure := 40; reg_brake_eff := 0.8;
     tire_pressure := 32; tire_temp := 30; suspension_load := 100;
     ambient_temp := 25; ambient_humidity := 50; load_weight := 500;
     driving_speed := 60; distance_traveled := 20000; idle_time := 60;
     route_roughness := 2 |}.

Definition features : list string :=
  [ "SoC"; "SoH"; "Battery_Voltage"; "Battery_Current"; "Battery_Temperature"; "Charge_Cycles";
    "Motor_Temperature"; "Motor_Vibration"; "Motor_Torque"; "Motor_RPM"; "Power_Consumption";
    "Brake_Pad_Wear"; "Brake_Pressure"; "Reg_Brake_Efficiency"; "Tire_Pressure"; "Tire_Temperature";
    "Suspension_Load"; "Ambient_Temperature"; "Ambient_Humidity"; "Load_Weight"; "Driving_Speed";
    "Distance_Traveled"; "Idle_Time"; "Route_Roughness" ]%string.

Definition manual_input (c : controls) : DataFrame :=
  {| columns := features;
     rows := [[ CFloat (truediv (soc c) 100); CFloat (truediv (soh c) 100);
                CInt (battery_voltage c); CInt (battery_current c);
                CInt (battery_temp c); CInt (charge_cycles c);
                CInt (motor_temp c); CFloat (motor_vibration c);
                CFloat (motor_torque c); CInt (motor_rpm c);
                CFloat (power_consumption c);
                CFloat (truediv (brake_wear c) 100); CFloat (brake_pressure c);
                CFloat (reg_brake_eff c); CInt (tire_pressure c);
                CInt (tire_temp c);
                CFloat (suspension_load c); CInt (ambient_temp c);
                CInt (ambient_humidity c); CFloat (load_weight c);
                CFloat (driving_speed c);
                CInt (distance_traveled c); CInt (idle_time c);
                CFloat (route_roughness c) ]] |}.

(** The distance between the stored fraction [z / 100] and the exact
    quotient is at most 2^-54, half a unit in the last place below 1. *)
Definition percent_error_ok (z : Z) : bool :=
  let q := Q_of_float (truediv z 100) in
  let d := Qabs (q - inject_Z z / 100) in
  Qle_bool d (1 # 18014398509481984).

(** ** Prediction rows *)

(** The lambda applied to every row of [results]. *)
Definition Warranty_Claim_Accepted (RUL_days Failure_Probability : float) : string :=
  if ((RUL_days <? 180) || (0.5 <? Failure_Probability))%float
  then "✅ Accepted"%string
  else "❌ Rejected"%string.

Definition result_columns : list string :=
  [ "RUL_days"; "Failure_Probability"; "Vehicle_Health"; "Warranty_Claim_Accepted" ]%string.

Definition result_row (rul p : float) : list cell :=
  [ CFloat rul; CFloat p; CFloat (1 - p)%float; CStr (Warranty_Claim_Accepted rul p) ].

(** The four columns of [results] that are shown, one row per input row. *)
Definition results (rul_predictions failure_predictions : list float) : DataFrame :=
  {| columns := result_columns;
     rows := map (fun rp => result_row (fst rp) (snd rp))
                 (combine rul_predictions failure_predictions) |}.

(** Assigning a column of the wrong length raises [ValueError]. *)
Definition check_length (n : nat) (values : list float) : outcome unit :=
  if Nat.eqb (List.length values) n then Ok tt
  else Raise "Length of values does not match length of index"%string.

(** [input_data]: the manual row alone, or with the uploaded rows after it. *)
Definition input_data (manual : DataFrame) (csv_data : option DataFrame) : DataFrame :=
  match csv_data with
  | Some csv => pd_concat manual csv
  | None => manual
  end.

(** ** Summary metrics, recommendations and chart *)

Local Open Scope ui_scope.

(** One bullet of the recommendation list: [int(x)] and its unit. *)
Definition write_interval (label : string) (x : float) (unit_ : string) : ui unit :=
  v <- lift (py_int x) ;;
  emit (EvLine label v unit_).

Definition recommended_maintenance (avg_rul : float) (distance_traveled : Z) : ui unit :=
  emit (EvMarkdown "### 🛠️ Recommended Maintenance") ;;
  write_interval "Next **battery health check**" (avg_rul / 3)%float "days" ;;
  write_interval "**Brake service**" (avg_rul / 2)%float "days" ;;
  write_interval "**Tire rotation**" (truediv distance_traveled 1000) "km" ;;
  write_interval "**Cooling system inspection**" (avg_rul / 4)%float "days" ;;
  write_interval "**Motor vibration check**" (avg_rul / 5)%float "days".

(** The [x] and [y] arguments of [px.bar], paired position by position. *)
Definition interval_chart (avg_rul : float) (distance_traveled : Z) : list (string * float) :=
  combine [ "Battery"; "Brakes"; "Tires"; "Motor"; "Cooling" ]%string
          [ (avg_rul / 3)%float; (avg_rul / 2)%float;
            truediv distance_traveled 1000;
            (avg_rul / 4)%float; (avg_rul / 5)%float ].

Definition summary (avg_rul avg_failure : float) (distance_traveled : Z) : ui unit :=
  a <- lift (py_int avg_rul) ;;
  emit (EvMetric "🕒 Avg Remaining Useful Life (days)" (SInt a) "") ;;
  emit (EvMetric "⚠️ Avg Failure Probability" (SFixed 1 (avg_failure * 100)%float) "%") ;;
  recommended_maintenance avg_rul distance_traveled ;;
  emit (EvBarChart (interval_chart avg_rul distance_traveled)).


(** ** The script *)

Section Dashboard.

(** The world outside the script: the files on disk (path to contents,
    [None] where [os.path.exists] is false), [joblib.load] and
    [pd.read_csv] on the bytes of a file, and [ndarray.mean]. *)
Variable fs : string -> option string.
Variable joblib_load : string -> outcome Model.
Variable read_csv : string -> outcome DataFrame.
Variable np_mean : list float -> float.

(** The body of [load_model]; [st.cache_resource] only saves a second
    execution of it and is left out. *)
Definition load_model (path : string) : ui (option Model) :=
  match fs path with
  | Some contents =>
      model <- lift (joblib_load contents) ;;
      ret (Some model)
  | None =>
      emit (EvSidebarError ("❌ Model not found: " ++ path)) ;;
      ret None
  end.

(** Tab 1: the upload.  [uploaded_file] holds the bytes of the file, or
    [None] when nothing was uploaded. *)
Definition tab1 (uploaded_file : option string) : ui (option DataFrame) :=
  emit (EvHeader "📁 Upload EV Sensor Data (CSV)") ;;
  match uploaded_file with
  | Some file =>
      try_except
        (csv_data <- lift (read_csv file) ;;
         emit (EvSuccess "✅ CSV Loaded Successfully") ;;
         emit (EvDataframe (head csv_data)) ;;
         ret (Some csv_data))
        (fun e =>
           emit (EvError ("❌ Error reading CSV: " ++ e)) ;;
           ret None)
  | None => ret None
  end.

(** The body of the [try] in tab 2. *)
Definition run_prediction (rul_model failure_model : option Model)
    (manual : DataFrame) (csv_data : option DataFrame)
    (distance_traveled : Z) : ui unit :=
  let input := input_data manual csv_data in
  rul_predictions <- lift (call_predict rul_model input) ;;
  proba <- lift (call_predict_proba failure_model input) ;;
  let failure_predictions := map snd proba in
  lift (check_length (List.length (rows input)) rul_predictions) ;;
  lift (check_length (List.length (rows input)) failure_predictions) ;;
  emit (EvDataframe (results rul_predictions failure_predictions)) ;;
  let avg_rul := np_mean rul_predictions in
  let avg_failure := np_mean failure_predictions in
  summary avg_rul avg_failure distance_traveled.

(** Tab 2: the prediction, run when the button is pressed. *)
Definition tab2 (button : bool) (rul_model failure_model : option Model)
    (manual : DataFrame) (csv_data : option DataFrame)
    (distance_traveled : Z) : ui unit :=
  emit (EvHeader "🔮 Predict Maintenance Needs") ;;
  if button then
    if truthy rul_model && truthy failure_model then
      try_except
        (run_prediction rul_model failure_model manual csv_data distance_traveled)
        (fun e => emit (EvError ("❌ Error during prediction: " ++ e)))
    else ret tt
  else ret tt.

(** Lines 35 to 168: both loads, the page title, the sidebar and its
    manual row, tab 1 and tab 2.  Widgets, tabs and columns put no
    message on the page and appear only through the values they return. *)
Definition dashboard (c : controls) (uploaded_file : option string)
    (button : bool) : ui unit :=
  rul_model <- load_model RUL_MODEL_PATH ;;
  failure_model <- load_model FAILURE_MODEL_PATH ;;
  emit (EvTitle "🚗 EV Predictive Maintenance Dashboard") ;;
  emit (EvMarkdown "### Predict vehicle health, maintenance, and warranty eligibility with live sensor data integration.") ;;
  emit (EvSidebarHeader "⚙️ Manual Vehicle Data Input") ;;
  let manual := manual_input c in
  csv_data <- tab1 uploaded_file ;;
  tab2 button rul_model failure_model manual csv_data (distance_traveled c).

End Dashboard.

Local Close Scope ui_scope.

(** ** Tab 3: the live sensor console *)

Module Live.

Local Open Scope Q_scope.

(** [random.uniform(a, b)] is [a + (b - a) * random()], with [random()]
    in the half-open interval from 0 to 1.  The draw is modelled in exact
    rational arithmetic: order reasoning over every draw is carried out
    on the rationals, and the binary64 values at both ends of the draw are
    evaluated separately below. *)
Definition uniform (a b r : Q) : Q := a + (b - a) * r.

Record sensor_data : Type := mkSensor {
  Battery_Voltage : Q;
  Battery_Current : Q;
  Battery_Temperature : Q;
  Motor_Temperature : Q;
  Motor_Vibration : Q;
  Brake_Pad_Wear : Q;
  Tire_Pressure : Q;
  Ambient_Temperature : Q
}.

(** One sample; the dict literal draws its eight values in order, from
    position [k] of the random source onward. *)
Definition sample (random : nat -> Q) (k : nat) : sensor_data :=
  {| Battery_Voltage := uniform 380 420 (random k);
     Battery_Current := uniform (-50) 50 (random (k + 1)%nat);
     Battery_Temperature := uniform 25 40 (random (k + 2)%nat);
     Motor_Temperature := uniform 50 90 (random (k + 3)%nat);
     Motor_Vibration := uniform 0.1 2.0 (random (k + 4)%nat);
     Brake_Pad_Wear := uniform 0.1 0.9 (random (k + 5)%nat);
     Tire_Pressure := uniform 28 36 (random (k + 6)%nat);
     Ambient_Temperature := uniform 20 35 (random (k + 7)%nat) |}.

(** [while start:] run for [n] iterations: the samples shown, in order.
    [start] does not change inside the loop. *)
Fixpoint monitor (start : bool) (n : nat) (random : nat -> Q) (k : nat)
  : list sensor_data :=
  match n with
  | O => []
  | S n' =>
      if start then sample random k :: monitor start n' random (k + 8)%nat
      else []
  end.



(** The same draw on binary64 floats, as the interpreter evaluates it. *)
Definition uniform64 (a b r : float) : float := (a + (b - a) * r)%float.

(** The largest value [random()] returns: 1 - 2^-53. *)
Definition random_max : float := 0x1.fffffffffffffp-1%float.

Definition between64 (lo hi x : float) : bool :=
  ((lo <=? x) && (x <=? hi))%float.

End Live.


(** ** Concrete surroundings for the examples *)

(** A pipeline that predicts the same RUL and failure probability for
    every row. *)
Definition constant_model (rul p : float) : Model :=
  {| predict := fun d => Ok (map (fun _ => rul) (rows d));
     predict_proba := fun d => Ok (map (fun _ => ((1 - p)%float, p)) (rows d)) |}.

(** A disk with neither model file, and one with an empty file where the
    RUL pipeline should be. *)
Definition empty_disk : string -> option string := fun _ => None.

Definition truncated_disk : string -> option string :=
  fun path => if String.eqb path RUL_MODEL_PATH then Some ""%string else None.

(** Unpickling: an empty file is an [EOFError], anything else stands for a
    pickled pipeline. *)
Definition unpickle (contents : string) : outcome Model :=
  match contents with
  | EmptyString => Raise "Ran out of input"%string
  | _ => Ok (constant_model 300 0.3)
  end.

(** A two-row table whose single column is no feature. *)
Definition foreign_upload : DataFrame :=
  {| columns := ["foo"%string]; rows := [[CInt 1]; [CInt 2]] |}.

(** Parsing: an empty upload is an [EmptyDataError], anything else stands
    for the table above. *)
Definition parse_csv (file : string) : outcome DataFrame :=
  match file with
  | EmptyString => Raise "No columns to parse from file"%string
  | _ => Ok foreign_upload
  end.

(** A disk holding a file at every path, and a pipeline that, like a
    fitted one, refuses a frame that has not exactly the 24 features. *)
Definition full_disk : string -> option string := fun _ => Some "pickle"%string.

Definition fitted_model (rul p : float) : Model :=
  {| predict := fun d =>
       if Nat.eqb (List.length (columns d)) 24
       then Ok (map (fun _ => rul) (rows d))
       else Raise "columns are missing or unexpected"%string;
     predict_proba := fun d =>
       if Nat.eqb (List.length (columns d)) 24
       then Ok (map (fun _ => ((1 - p)%float, p)) (rows d))
       else Raise "columns are missing or unexpected"%string |}.

(** The mean of a short array: the running sum, left to right, divided by
    the length. *)
Definition mean_seq (l : list float) : float :=
  (fold_left PrimFloat.add l 0 / float_of_Z (Z.of_nat (List.length l)))%float.


(** ** Widget ranges *)

Definition zbetween (lo hi z : Z) : bool := (lo <=? z) && (z <=? hi).

Definition fbetween (lo hi x : float) : bool := ((lo <=? x) && (x <=? hi))%float.

(** The minimum and maximum each int widget is built with (its first two
    numeric arguments); Streamlit returns a value within them. *)
Definition int_bounds (c : controls) : bool :=
  zbetween 0 100 (soc c) && zbetween 0 100 (soh c) &&
  zbetween 0 500 (battery_voltage c) && zbetween (-500) 500 (battery_current c) &&
  zbetween 0 100 (battery_temp c) && zbetween 0 5000 (charge_cycles c) &&
  zbetween 0 200 (motor_temp c) && zbetween 0 10000 (motor_rpm c) &&
  zbetween 0 100 (brake_wear c) && zbetween 20 50 (tire_pressure c) &&
  zbetween 0 100 (tire_temp c) && zbetween (-10) 50 (ambient_temp c) &&
  zbetween 0 100 (ambient_humidity c) && zbetween 0 500000 (distance_traveled c) &&
  zbetween 0 5000 (idle_time c).

(** The same for the float widgets. *)
Definition float_bounds (c : controls) : bool :=
  fbetween 0 10 (motor_vibration c) && fbetween 0 500 (motor_torque c) &&
  fbetween 0 500 (power_consumption c) && fbetween 0 100 (brake_pressure c) &&
  fbetween 0 1 (reg_brake_eff c) && fbetween 0 500 (suspension_load c) &&
  fbetween 0 2000 (load_weight c) && fbetween 0 200 (driving_speed c) &&
  fbetween 0 10 (route_roughness c).

Definition in_bounds (c : controls) : bool := int_bounds c && float_bounds c.

(** [f] holds at [z], [z + 1], ..., [z + n - 1]. *)
Fixpoint all_from (n : nat) (z : Z) (f : Z -> bool) : bool :=
  match n with
  | O => true
  | S n' => if f z then all_from n' (z + 1) f else false
  end.

(** The same over machine integers. *)
Fixpoint all_from63 (n : nat) (d : int) (f : int -> bool) : bool :=
  match n with
  | O => true
  | S n' => if f d then all_from63 n' (d + 1)%uint63 f else false
  end.

(** [int(d / 1000)] is the integer quotient of [d] by 1000, checked on
    the float itself: it is zero below 1000, and otherwise a positive
    normal number whose 53-bit mantissa, shifted right by the weight of
    its last bit, is the quotient. *)
Definition tire_ok63 (d : int) : bool :=
  let x := (of_uint63 d / 1000)%float in
  if PrimFloat.is_nan x then false
  else if PrimFloat.is_zero x then (d <? 1000)%uint63
  else if PrimFloat.is_infinity x then false
  else
    let (r, se) := frshiftexp x in
    let mi := normfr_mantissa r in
    ((4503599627370496 <=? mi) && (mi <? 9007199254740992) &&
     negb (PrimFloat.get_sign x) && (1080 <=? se) && (se <=? 2153) &&
     ((mi >> (2154 - se)) =? d / 1000))%uint63.

(** The fraction stored for slider position [z] lies between 0 and 1 and
    is below the fraction of every higher position. *)
Definition fraction_ok (z : Z) : bool :=
  fbetween 0 1 (truediv z 100) &&
  percent_error_ok z &&
  all_from 101 0
    (fun z' => if z <? z' then (truediv z 100 <? truediv z' 100)%float else true).

(** ** Kinds of events *)

Definition is_table (ev : event) : bool :=
  match ev with
  | EvDataframe _ => true
  | _ => false
  end.

(** * Properties *)

(** ** Lists and frames *)

Lemma nth_error_combine_some {A B} (l : list A) (l' : list B) i a b :
  nth_error l i = Some a ->
  nth_error l' i = Some b ->
  nth_error (combine l l') i = Some (a, b).
Proof.
  revert l' i; induction l as [|x l IH]; intros [|y l'] [|i]; simpl;
    try discriminate.
  - now intros [= ->] [= ->].
  - apply IH.
Qed.

Lemma results_row rul_predictions failure_predictions i rul p :
  nth_error rul_predictions i = Some rul ->
  nth_error failure_predictions i = Some p ->
  nth_error (rows (results rul_predictions failure_predictions)) i
  = Some (result_row rul p).
Proof.
  intros Hr Hp. simpl.
  rewrite nth_error_map, (nth_error_combine_some _ _ _ _ _ Hr Hp).
  reflexivity.
Qed.

Lemma warranty_accepted_iff rul p :
  Warranty_Claim_Accepted rul p = "✅ Accepted"%string
  <-> ((rul <? 180)%float = true \/ (0.5 <? p)%float = true).
Proof.
  unfold Warranty_Claim_Accepted.
  destruct (rul <? 180)%float, (0.5 <? p)%float; simpl;
    intuition discriminate.
Qed.

Lemma warranty_rejected_iff rul p :
  Warranty_Claim_Accepted rul p = "❌ Rejected"%string
  <-> ~ ((rul <? 180)%float = true \/ (0.5 <? p)%float = true).
Proof.
  unfold Warranty_Claim_Accepted.
  destruct (rul <? 180)%float, (0.5 <? p)%float; simpl;
    intuition discriminate.
Qed.

(** ** The warranty decision *)

(** C1. For every row of the prediction table, the row carries the RUL
    and the failure probability predicted for it, and its warranty
    decision is Accepted exactly when the RUL is strictly below 180 or
    the failure probability strictly above 0.5, and Rejected otherwise.
    RUL 179 with probability 0.1 and RUL 300 with probability 0.6 are
    accepted, RUL 300 with probability 0.3 is rejected. *)
Theorem warranty_decision_rule :
  forall (rul_predictions failure_predictions : list float) (i : nat)
         (rul p : float),
    nth_error rul_predictions i = Some rul ->
    nth_error failure_predictions i = Some p ->
    let table := results rul_predictions failure_predictions in
    let accept := ((rul <? 180)%float = true \/ (0.5 <? p)%float = true) in
    df_at table i "RUL_days" = Some (CFloat rul) /\
    df_at table i "Failure_Probability" = Some (CFloat p) /\
    (df_at table i "Warranty_Claim_Accepted" = Some (CStr "✅ Accepted")
     <-> accept) /\
    (df_at table i "Warranty_Claim_Accepted" = Some (CStr "❌ Rejected")
     <-> ~ accept) /\
    Warranty_Claim_Accepted 179 0.1 = "✅ Accepted"%string /\
    Warranty_Claim_Accepted 300 0.6 = "✅ Accepted"%string /\
    Warranty_Claim_Accepted 300 0.3 = "❌ Rejected"%string.
Proof.
  intros rp fp i rul p Hr Hp table accept.
  assert (Hw : df_at table i "Warranty_Claim_Accepted"
               = Some (CStr (Warranty_Claim_Accepted rul p))).
  { unfold df_at, table. rewrite (results_row _ _ _ _ _ Hr Hp). reflexivity. }
  repeat split.
  - unfold df_at, table. rewrite (results_row _ _ _ _ _ Hr Hp). reflexivity.
  - unfold df_at, table. rewrite (results_row _ _ _ _ _ Hr Hp). reflexivity.
  - rewrite Hw. intros [= H]. now apply warranty_accepted_iff.
  - intros H. rewrite Hw. do 2 f_equal. now apply warranty_accepted_iff.
  - rewrite Hw. intros [= H]. now apply warranty_rejected_iff.
  - intros H. rewrite Hw. do 2 f_equal. now apply warranty_rejected_iff.
Qed.

Lemma warranty_decision_rule_witness :
  let rul_predictions := [179; 300; 300]%float in
  let failure_predictions := [0.1; 0.6; 0.3]%float in
  df_at (results rul_predictions failure_predictions) 1 "Warranty_Claim_Accepted"
  = Some (CStr "✅ Accepted")
  <-> ((300 <? 180)%float = true \/ (0.5 <? 0.6)%float = true).
Proof.
  exact (proj1 (proj2 (proj2
    (warranty_decision_rule [179; 300; 300]%float [0.1; 0.6; 0.3]%float
       1%nat 300%float 0.6%float eq_refl eq_refl)))).
Defined.

(** The thresholds themselves are on the Rejected side, and a NaN
    prediction compares false both ways. *)
Lemma warranty_boundary :
  Warranty_Claim_Accepted 180 0.5 = "❌ Rejected"%string /\
  Warranty_Claim_Accepted nan nan = "❌ Rejected"%string /\
  Warranty_Claim_Accepted 180 0x1.0000000000001p-1 = "✅ Accepted"%string /\
  Warranty_Claim_Accepted 0x1.67fffffffffffp+7 0.5 = "✅ Accepted"%string.
Proof. repeat split. Qed.

(** ** The manual row *)

(** [features] names 24 columns, none twice, and the manual frame has one
    row of as many cells. *)
Lemma features_shape :
  List.length features = 24%nat /\ NoDup features.
Proof.
  split; [reflexivity|].
  unfold features.
  repeat (constructor; [simpl; intuition discriminate|]).
  constructor.
Qed.

Lemma manual_input_wf c : wf_frame (manual_input c).
Proof. repeat constructor. Qed.


(** With the widgets at their defaults the three fractions are the
    binary64 numbers 0.8, 0.95 and 0.2. *)
Lemma manual_input_default_fractions :
  df_at (manual_input default_controls) 0 "SoC" = Some (CFloat 0.8) /\
  df_at (manual_input default_controls) 0 "SoH" = Some (CFloat 0.95) /\
  df_at (manual_input default_controls) 0 "Brake_Pad_Wear" = Some (CFloat 0.2).
Proof. repeat split. Qed.

(** Over the whole range of a percentage slider, the stored fraction is
    within half a unit in the last place of the exact quotient. *)
Lemma percent_fraction_rounding :
  forallb percent_error_ok (map Z.of_nat (seq 0 101)) = true.
Proof. vm_compute. reflexivity. Qed.

(** ** Truncation *)

Lemma Qtrunc_inject (n : Z) : 0 <= n -> Qtrunc (inject_Z n) = n.
Proof.
  intros Hn. unfold Qtrunc, Qle_bool, inject_Z; simpl.
  rewrite Z.mul_1_r.
  destruct (Z.leb_spec 0 n); [|lia].
  now rewrite Z.div_1_r.
Qed.

Lemma Qtrunc_opp_inject (n : Z) : 0 < n -> Qtrunc (- inject_Z n) = - n.
Proof.
  intros Hn. unfold Qtrunc, Qle_bool, Qceiling, Qfloor, Qopp, inject_Z; simpl.
  rewrite Z.mul_1_r.
  destruct (Z.leb_spec 0 (- n)); [lia|].
  now rewrite Z.opp_involutive, Z.div_1_r.
Qed.

Lemma Qtrunc_frac (m d : positive) : Qtrunc (Zpos m # d) = Zpos m / Zpos d.
Proof. reflexivity. Qed.

Lemma Qtrunc_opp_frac (m d : positive) :
  Qtrunc (- (Zpos m # d)) = - (Zpos m / Zpos d).
Proof. reflexivity. Qed.

(** [int(f)] succeeds exactly on the finite floats, and its value is the
    rational value of [f] truncated toward zero. *)
Lemma py_int_trunc (f : float) (z : Z) :
  py_int f = Ok z -> is_finite f = true /\ z = Qtrunc (Q_of_float f).
Proof.
  unfold py_int, is_finite, Q_of_float.
  destruct (Prim2SF f) as [s|s| |s m e]; try discriminate.
  - intros [= <-]. now split.
  - intros [= <-]. split; [reflexivity|].
    destruct (Z.leb_spec 0 e) as [He|He].
    + assert (0 < Zpos m * 2 ^ e) by (apply Z.mul_pos_pos; [lia|now apply Z.pow_pos_nonneg]).
      destruct s; symmetry.
      * now apply Qtrunc_opp_inject.
      * apply Qtrunc_inject. now apply Z.lt_le_incl.
    + assert (Hp : 0 < 2 ^ (- e)) by (apply Z.pow_pos_nonneg; lia).
      destruct s.
      * rewrite Qtrunc_opp_frac, Z2Pos.id by exact Hp. reflexivity.
      * rewrite Qtrunc_frac, Z2Pos.id by exact Hp. reflexivity.
Qed.

Lemma py_int_finite (f : float) :
  is_finite f = true -> exists z, py_int f = Ok z.
Proof.
  unfold py_int, is_finite.
  destruct (Prim2SF f); try discriminate; eauto.
Qed.

(** ** Recommendations *)

Lemma write_interval_ok label x unit_ v :
  py_int x = Ok v ->
  write_interval label x unit_ = ([EvLine label v unit_], Ok tt).
Proof. unfold write_interval. now intros ->. Qed.

Lemma recommended_maintenance_ok avg_rul distance battery brakes tire cooling motor :
  py_int (avg_rul / 3)%float = Ok battery ->
  py_int (avg_rul / 2)%float = Ok brakes ->
  py_int (truediv distance 1000) = Ok tire ->
  py_int (avg_rul / 4)%float = Ok cooling ->
  py_int (avg_rul / 5)%float = Ok motor ->
  recommended_maintenance avg_rul distance
  = ([ EvMarkdown "### 🛠️ Recommended Maintenance";
       EvLine "Next **battery health check**" battery "days";
       EvLine "**Brake service**" brakes "days";
       EvLine "**Tire rotation**" tire "km";
       EvLine "**Cooling system inspection**" cooling "days";
       EvLine "**Motor vibration check**" motor "days" ], Ok tt).
Proof.
  intros H3 H2 Ht H4 H5. unfold recommended_maintenance.
  rewrite (write_interval_ok _ _ _ _ H3), (write_interval_ok _ _ _ _ H2),
    (write_interval_ok _ _ _ _ Ht), (write_interval_ok _ _ _ _ H4),
    (write_interval_ok _ _ _ _ H5).
  reflexivity.
Qed.

(** C2. The five recommendation lines show the intervals derived by fixed
    ratios: battery from avg/3, brakes from avg/2, cooling from avg/4 and
    motor from avg/5, in days, and tire rotation from the distance
    traveled / 1000, in km.  For an average RUL of 300 and a distance of
    45000 they read battery 100, brakes 150, cooling 75, motor 60 and
    tire 45. *)
Theorem maintenance_intervals :
  forall (avg_rul : float) (distance : Z) (battery brakes tire cooling motor : Z),
    py_int (avg_rul / 3)%float = Ok battery ->
    py_int (avg_rul / 2)%float = Ok brakes ->
    py_int (truediv distance 1000) = Ok tire ->
    py_int (avg_rul / 4)%float = Ok cooling ->
    py_int (avg_rul / 5)%float = Ok motor ->
    recommended_maintenance avg_rul distance
    = ([ EvMarkdown "### 🛠️ Recommended Maintenance";
         EvLine "Next **battery health check**" battery "days";
         EvLine "**Brake service**" brakes "days";
         EvLine "**Tire rotation**" tire "km";
         EvLine "**Cooling system inspection**" cooling "days";
         EvLine "**Motor vibration check**" motor "days" ], Ok tt)
    /\ (300 / 3 = 100 /\ 300 / 2 = 150 /\ 300 / 4 = 75 /\ 300 / 5 = 60)%float
    /\ truediv 45000 1000 = 45%float
    /\ recommended_maintenance 300 45000
       = ([ EvMarkdown "### 🛠️ Recommended Maintenance";
            EvLine "Next **battery health check**" 100 "days";
            EvLine "**Brake service**" 150 "days";
            EvLine "**Tire rotation**" 45 "km";
            EvLine "**Cooling system inspection**" 75 "days";
            EvLine "**Motor vibration check**" 60 "days" ], Ok tt).
Proof.
  intros avg_rul distance battery brakes tire cooling motor H3 H2 Ht H4 H5.
  split; [now apply recommended_maintenance_ok|].
  repeat split.
Qed.

Lemma maintenance_intervals_witness :
  recommended_maintenance 299 20000
  = ([ EvMarkdown "### 🛠️ Recommended Maintenance";
       EvLine "Next **battery health check**" 99 "days";
       EvLine "**Brake service**" 149 "days";
       EvLine "**Tire rotation**" 20 "km";
       EvLine "**Cooling system inspection**" 74 "days";
       EvLine "**Motor vibration check**" 59 "days" ], Ok tt).
Proof.
  exact (proj1 (maintenance_intervals 299 20000 99 149 20 74 59
                  eq_refl eq_refl eq_refl eq_refl eq_refl)).
Defined.

(** ** Text and chart *)

(** C9. The average-RUL metric and the five recommendation lines show
    [int()] of their values, that is the values truncated toward zero,
    while the bar chart receives the five ratios untruncated.  With an
    average RUL of 299 the brake-service line reads 149 days and the
    Brakes bar is 149.5. *)
Theorem text_truncated_chart_exact :
  forall (avg_rul avg_failure : float) (distance : Z)
         (a battery brakes tire cooling motor : Z),
    py_int avg_rul = Ok a ->
    py_int (avg_rul / 3)%float = Ok battery ->
    py_int (avg_rul / 2)%float = Ok brakes ->
    py_int (truediv distance 1000) = Ok tire ->
    py_int (avg_rul / 4)%float = Ok cooling ->
    py_int (avg_rul / 5)%float = Ok motor ->
    summary avg_rul avg_failure distance
    = ([ EvMetric "🕒 Avg Remaining Useful Life (days)" (SInt a) "";
         EvMetric "⚠️ Avg Failure Probability" (SFixed 1 (avg_failure * 100)%float) "%";
         EvMarkdown "### 🛠️ Recommended Maintenance";
         EvLine "Next **battery health check**" battery "days";
         EvLine "**Brake service**" brakes "days";
         EvLine "**Tire rotation**" tire "km";
         EvLine "**Cooling system inspection**" cooling "days";
         EvLine "**Motor vibration check**" motor "days";
         EvBarChart [ ("Battery"%string, (avg_rul / 3)%float);
                      ("Brakes"%string, (avg_rul / 2)%float);
                      ("Tires"%string, truediv distance 1000);
                      ("Motor"%string, (avg_rul / 4)%float);
                      ("Cooling"%string, (avg_rul / 5)%float) ] ],
       Ok tt)
    /\ a = Qtrunc (Q_of_float avg_rul)
    /\ battery = Qtrunc (Q_of_float (avg_rul / 3)%float)
    /\ brakes = Qtrunc (Q_of_float (avg_rul / 2)%float)
    /\ tire = Qtrunc (Q_of_float (truediv distance 1000))
    /\ cooling = Qtrunc (Q_of_float (avg_rul / 4)%float)
    /\ motor = Qtrunc (Q_of_float (avg_rul / 5)%float)
    /\ py_int (299 / 2)%float = Ok 149
    /\ (299 / 2 = 149.5)%float
    /\ In ("Brakes"%string, 149.5%float) (interval_chart 299 distance).
Proof.
  intros avg_rul avg_failure distance a battery brakes tire cooling motor
         Ha H3 H2 Ht H4 H5.
  split.
  { unfold summary. rewrite Ha.
    rewrite (recommended_maintenance_ok _ _ _ _ _ _ _ H3 H2 Ht H4 H5).
    reflexivity. }
  repeat split; try (now apply py_int_trunc).
  right; left; reflexivity.
Qed.

Lemma text_truncated_chart_exact_witness :
  summary 299 0.25 20000
  = ([ EvMetric "🕒 Avg Remaining Useful Life (days)" (SInt 299) "";
       EvMetric "⚠️ Avg Failure Probability" (SFixed 1 25) "%";
       EvMarkdown "### 🛠️ Recommended Maintenance";
       EvLine "Next **battery health check**" 99 "days";
       EvLine "**Brake service**" 149 "days";
       EvLine "**Tire rotation**" 20 "km";
       EvLine "**Cooling system inspection**" 74 "days";
       EvLine "**Motor vibration check**" 59 "days";
       EvBarChart [ ("Battery"%string, (299 / 3)%float);
                    ("Brakes"%string, 149.5%float);
                    ("Tires"%string, 20%float);
                    ("Motor"%string, 74.75%float);
                    ("Cooling"%string, (299 / 5)%float) ] ],
     Ok tt).
Proof.
  exact (proj1 (text_truncated_chart_exact 299 0.25 20000 299 99 149 20 74 59
                  eq_refl eq_refl eq_refl eq_refl eq_refl eq_refl)).
Defined.

(** Negative values are truncated toward zero as well, not floored, and
    an average that is not finite makes [int()] raise. *)
Lemma py_int_examples :
  py_int (-149.5) = Ok (-149) /\
  py_int 149.5 = Ok 149 /\
  py_int (-0.75) = Ok 0 /\
  py_int nan = Raise "cannot convert float NaN to integer"%string /\
  py_int infinity = Raise "cannot convert float infinity to integer"%string.
Proof. repeat split. Qed.

(** The chart pairs its labels with its values by position: the bar
    labelled Motor carries avg/4, the ratio of the cooling-system line,
    and the bar labelled Cooling carries avg/5, the ratio of the
    motor-vibration line. *)
Lemma chart_motor_cooling_labels (avg_rul : float) (distance : Z) :
  In ("Motor"%string, (avg_rul / 4)%float) (interval_chart avg_rul distance) /\
  In ("Cooling"%string, (avg_rul / 5)%float) (interval_chart avg_rul distance).
Proof. simpl; intuition. Qed.

(** ** The model loader *)

Section Loader.

Variable fs : string -> option string.
Variable joblib_load : string -> outcome Model.

Lemma load_model_missing path :
  fs path = None ->
  load_model fs joblib_load path
  = ([EvSidebarError ("❌ Model not found: " ++ path)], Ok None).
Proof. unfold load_model. now intros ->. Qed.

Lemma load_model_present path contents :
  fs path = Some contents ->
  load_model fs joblib_load path
  = ([], match joblib_load contents with
         | Ok model => Ok (Some model)
         | Raise e => Raise e
         end).
Proof.
  unfold load_model. intros ->.
  now destruct (joblib_load contents).
Qed.

End Loader.

(** C5, as the code has it. For every path: where no file exists the
    loader returns null, puts the message "Model not found" with the path
    in the sidebar, and does not raise; where a file exists and unpickles
    to a pipeline, the loader returns that pipeline and shows nothing. *)
Theorem load_model_cases :
  forall (fs : string -> option string)
         (joblib_load : string -> outcome Model) (path : string),
    (fs path = None ->
     load_model fs joblib_load path
     = ([EvSidebarError ("❌ Model not found: " ++ path)], Ok None))
    /\
    (forall contents model,
       fs path = Some contents ->
       joblib_load contents = Ok model ->
       load_model fs joblib_load path = ([], Ok (Some model))).
Proof.
  intros fs jl path. split.
  - apply load_model_missing.
  - intros contents model E H.
    rewrite (load_model_present fs jl _ _ E), H. reflexivity.
Qed.

Lemma load_model_cases_witness :
  load_model empty_disk unpickle RUL_MODEL_PATH
  = ([EvSidebarError "❌ Model not found: RUL_pipeline.pkl"], Ok None)
  /\
  load_model full_disk unpickle RUL_MODEL_PATH
  = ([], Ok (Some (constant_model 300 0.3))).
Proof.
  split.
  - exact (proj1 (load_model_cases empty_disk unpickle RUL_MODEL_PATH) eq_refl).
  - exact (proj2 (load_model_cases full_disk unpickle RUL_MODEL_PATH)
             "pickle"%string (constant_model 300 0.3) eq_refl eq_refl).
Defined.

(** An empty file at the RUL path: the file exists, unpickling raises, and
    so does the loader: it returns neither a pipeline nor null, and puts
    nothing on the page. *)
Lemma load_model_truncated_file :
  truncated_disk RUL_MODEL_PATH = Some ""%string /\
  unpickle ""%string = Raise "Ran out of input"%string /\
  load_model truncated_disk unpickle RUL_MODEL_PATH
  = ([], Raise "Ran out of input"%string).
Proof. repeat split. Qed.

(** With that file in place the script stops at the first load: nothing
    of the page is built. *)
Lemma dashboard_truncated_file :
  dashboard truncated_disk unpickle parse_csv mean_seq default_controls None true
  = ([], Raise "Ran out of input"%string).
Proof. reflexivity. Qed.

(** ** The prediction tab *)

Section Prediction.

Variable np_mean : list float -> float.


(** Whatever the models do, the prediction tab returns normally: a raise
    inside the [try] ends as an error message on the page. *)
Lemma tab2_never_raises button rul_model failure_model manual csv_data distance :
  result (tab2 np_mean button rul_model failure_model manual csv_data distance)
  = Ok tt.
Proof.
  unfold tab2. destruct button; [|reflexivity].
  destruct (truthy rul_model && truthy failure_model); [|reflexivity].
  unfold try_except, bind, emit.
  destruct (run_prediction _ _ _ _ _ _) as [l [[]|e]]; reflexivity.
Qed.

End Prediction.




(** ** The upload tab *)

(** C6. If the uploaded file fails to parse, the error is caught and shown
    as "Error reading CSV", nothing of the upload is kept ([csv_data] is
    null, no success message and no preview are shown), and the batch
    handed to prediction is the manual frame: its single row, unchanged. *)
Theorem unparsable_upload_falls_back :
  forall (read_csv : string -> outcome DataFrame) (file : string) (e : exn)
         (c : controls),
    read_csv file = Raise e ->
    tab1 read_csv (Some file)
    = ([ EvHeader "📁 Upload EV Sensor Data (CSV)";
         EvError ("❌ Error reading CSV: " ++ e) ], Ok None)
    /\ (forall csv_data,
          result (tab1 read_csv (Some file)) = Ok csv_data ->
          input_data (manual_input c) csv_data = manual_input c)
    /\ List.length (rows (input_data (manual_input c) None)) = 1%nat.
Proof.
  intros read_csv file e c H.
  assert (E : tab1 read_csv (Some file)
              = ([ EvHeader "📁 Upload EV Sensor Data (CSV)";
                   EvError ("❌ Error reading CSV: " ++ e) ], Ok None)).
  { unfold tab1. rewrite H. reflexivity. }
  split; [exact E|]. split; [|reflexivity].
  intros csv_data. rewrite E. now intros [= <-].
Qed.

Lemma unparsable_upload_falls_back_witness :
  tab1 parse_csv (Some ""%string)
  = ([ EvHeader "📁 Upload EV Sensor Data (CSV)";
       EvError "❌ Error reading CSV: No columns to parse from file" ], Ok None).
Proof.
  exact (proj1 (unparsable_upload_falls_back parse_csv ""%string
                  "No columns to parse from file"%string default_controls
                  eq_refl)).
Defined.

(** ** Concatenation *)

Lemma index_of_nth name l j :
  index_of name l = Some j -> nth_error l j = Some name.
Proof.
  revert j; induction l as [|x l IH]; simpl; intros j; [discriminate|].
  destruct (String.eqb_spec name x) as [->|_].
  - now intros [= <-].
  - destruct (index_of name l) as [k|]; simpl; [|discriminate].
    intros [= <-]. now apply IH.
Qed.

Lemma index_of_lt name l j :
  index_of name l = Some j -> (j < List.length l)%nat.
Proof.
  intros H. apply nth_error_Some. now rewrite (index_of_nth _ _ _ H).
Qed.

Lemma index_of_In name l :
  In name l -> exists j, index_of name l = Some j.
Proof.
  induction l as [|x l IH]; simpl; [tauto|].
  intros H. destruct (String.eqb_spec name x) as [->|Hne]; [eauto|].
  destruct H as [->|H]; [congruence|].
  destruct (IH H) as [j ->]. simpl. eauto.
Qed.

Lemma index_of_app name l l' j :
  index_of name l = Some j -> index_of name (l ++ l') = Some j.
Proof.
  revert j; induction l as [|x l IH]; simpl; intros j; [discriminate|].
  destruct (String.eqb name x); [trivial|].
  destruct (index_of name l) as [k|]; simpl; [|discriminate].
  intros [= <-]. now rewrite (IH k eq_refl).
Qed.

Lemma mem_In name l : mem name l = true <-> In name l.
Proof.
  unfold mem. rewrite existsb_exists. split.
  - intros [x [Hx E]]. apply String.eqb_eq in E. now subst.
  - intros H. exists name. split; [exact H|apply String.eqb_refl].
Qed.

Lemma In_concat_columns a b name :
  In name (columns a) \/ In name (columns b) ->
  In name (columns (pd_concat a b)).
Proof.
  simpl. rewrite in_app_iff, filter_In.
  intros [H|H]; [now left|].
  destruct (mem name (columns a)) eqn:E.
  - left. now apply mem_In.
  - right. now split.
Qed.

Lemma reindex_lookup from to r name j j' :
  index_of name to = Some j ->
  index_of name from = Some j' ->
  List.length r = List.length from ->
  nth_error (reindex from to r) j = nth_error r j'.
Proof.
  intros Hto Hfrom Hlen. unfold reindex.
  rewrite nth_error_map, (index_of_nth _ _ _ Hto). simpl. rewrite Hfrom.
  symmetry. apply nth_error_nth'.
  rewrite Hlen. now apply index_of_lt with name.
Qed.

Lemma wf_frame_row df i r :
  wf_frame df -> nth_error (rows df) i = Some r ->
  List.length r = List.length (columns df).
Proof.
  intros Hwf H. unfold wf_frame in Hwf. rewrite Forall_forall in Hwf.
  apply Hwf. now apply nth_error_In with i.
Qed.

Lemma df_at_concat_left a b i name :
  wf_frame a -> In name (columns a) -> (i < List.length (rows a))%nat ->
  df_at (pd_concat a b) i name = df_at a i name.
Proof.
  intros Hwf Hin Hi.
  destruct (index_of_In _ _ Hin) as [j Hj].
  unfold df_at. rewrite Hj.
  assert (Hc : index_of name (columns (pd_concat a b)) = Some j)
    by now apply index_of_app.
  rewrite Hc. simpl rows.
  rewrite nth_error_app1 by now rewrite length_map.
  rewrite nth_error_map.
  destruct (nth_error (rows a) i) as [r|] eqn:Er; simpl; [|reflexivity].
  apply reindex_lookup with name; trivial.
  exact (wf_frame_row a i r Hwf Er).
Qed.

Lemma df_at_concat_right a b i name :
  wf_frame b -> In name (columns b) ->
  df_at (pd_concat a b) (List.length (rows a) + i) name = df_at b i name.
Proof.
  intros Hwf Hin.
  destruct (index_of_In _ _ Hin) as [j' Hj'].
  destruct (index_of_In _ _ (In_concat_columns a b name (or_intror Hin)))
    as [j Hj].
  unfold df_at. rewrite Hj, Hj'. simpl rows.
  rewrite nth_error_app2 by (rewrite length_map; lia).
  rewrite length_map.
  replace (List.length (rows a) + i - List.length (rows a))%nat with i by lia.
  rewrite nth_error_map.
  destruct (nth_error (rows b) i) as [r|] eqn:Er; simpl; [|reflexivity].
  apply reindex_lookup with name; trivial.
  exact (wf_frame_row b i r Hwf Er).
Qed.

Lemma index_of_notin name l :
  ~ In name l -> index_of name l = None.
Proof.
  induction l as [|x l IH]; simpl; [trivial|].
  intros H. destruct (String.eqb_spec name x) as [->|_]; [tauto|].
  rewrite IH by tauto. reflexivity.
Qed.

Lemma df_at_concat_absent a b i name :
  In name (columns a) -> ~ In name (columns b) ->
  (i < List.length (rows b))%nat ->
  df_at (pd_concat a b) (List.length (rows a) + i) name = Some NaN_cell.
Proof.
  intros Hin Hout Hi.
  destruct (index_of_In _ _ Hin) as [j Hj].
  unfold df_at.
  assert (Hc : index_of name (columns (pd_concat a b)) = Some j)
    by now apply index_of_app.
  rewrite Hc. simpl rows.
  rewrite nth_error_app2 by (rewrite length_map; lia).
  rewrite length_map.
  replace (List.length (rows a) + i - List.length (rows a))%nat with i by lia.
  rewrite nth_error_map.
  destruct (nth_error (rows b) i) as [r|] eqn:Er.
  - simpl. unfold reindex.
    pose proof (index_of_nth _ _ _ Hc) as Hn. simpl in Hn.
    rewrite nth_error_map, Hn. simpl.
    now rewrite (index_of_notin _ _ Hout).
  - apply nth_error_None in Er. lia.
Qed.

(** C7. Whenever an upload was parsed, the batch is the concatenation of
    the manual frame and the uploaded one: the manual row is row 0 and
    uploaded row [i] is row [i + 1].  The upload's columns are not
    checked against the 24 features: the columns are joined as they are,
    and a feature the upload lacks is NaN in the uploaded rows. *)
Theorem upload_rows_appended :
  forall (c : controls) (csv : DataFrame),
    wf_frame csv ->
    let batch := input_data (manual_input c) (Some csv) in
    batch = pd_concat (manual_input c) csv /\
    columns batch
    = (features ++ filter (fun name => negb (mem name features)) (columns csv))%list /\
    List.length (rows batch) = S (List.length (rows csv)) /\
    (forall name, In name features ->
       df_at batch 0 name = df_at (manual_input c) 0 name) /\
    (forall i name, In name (columns csv) ->
       df_at batch (S i) name = df_at csv i name) /\
    (forall i name, In name features -> ~ In name (columns csv) ->
       (i < List.length (rows csv))%nat ->
       df_at batch (S i) name = Some NaN_cell).
Proof.
  intros c csv Hwf batch. subst batch. simpl input_data.
  split; [reflexivity|]. split; [reflexivity|]. split.
  { simpl. now rewrite length_map. }
  split; [|split].
  - intros name Hin.
    apply df_at_concat_left; [apply manual_input_wf|exact Hin|simpl; lia].
  - intros i name Hin.
    exact (df_at_concat_right (manual_input c) csv i name Hwf Hin).
  - intros i name Hin Hout Hi.
    exact (df_at_concat_absent (manual_input c) csv i name Hin Hout Hi).
Qed.

Lemma upload_rows_appended_witness :
  wf_frame foreign_upload /\
  List.length (rows (input_data (manual_input default_controls) (Some foreign_upload)))
  = 3%nat.
Proof.
  assert (Hwf : wf_frame foreign_upload) by (repeat constructor).
  split; [exact Hwf|].
  exact (proj1 (proj2 (proj2
    (upload_rows_appended default_controls foreign_upload Hwf)))).
Defined.

(** An upload with one foreign column: the batch has 25 columns, the
    manual row has NaN under the foreign column and the uploaded rows have
    NaN under every feature. *)
Lemma upload_foreign_column :
  let batch := input_data (manual_input default_controls) (Some foreign_upload) in
  List.length (columns batch) = 25%nat /\
  df_at batch 0 "Battery_Voltage" = Some (CInt 400) /\
  df_at batch 0 "foo" = Some NaN_cell /\
  df_at batch 1 "foo" = Some (CInt 1) /\
  df_at batch 2 "foo" = Some (CInt 2) /\
  df_at batch 1 "Battery_Voltage" = Some NaN_cell.
Proof. repeat split. Qed.

(** ** The live sensor console *)

Module LiveFacts.
Import Live.
Local Open Scope Q_scope.





End LiveFacts.



(** With the toggle off the loop body never runs. *)
Lemma monitor_off (random : nat -> Q) (n k : nat) :
  Live.monitor false n random k = [].
Proof. now destruct n. Qed.

(** On binary64 floats, the draw stays within its range at both ends of
    what [random()] returns, 0 and 1 - 2^-53, for each of the eight
    fields, and would do so even at 1; binary64 addition and
    multiplication being monotone, the values in between lie in between. *)
Lemma live_endpoints_binary64 :
  forallb (fun ab =>
             Live.between64 (fst ab) (snd ab) (Live.uniform64 (fst ab) (snd ab) 0)
             && Live.between64 (fst ab) (snd ab)
                  (Live.uniform64 (fst ab) (snd ab) Live.random_max)
             && Live.between64 (fst ab) (snd ab)
                  (Live.uniform64 (fst ab) (snd ab) 1))
    [ (380, 420); (-50, 50); (25, 40); (50, 90);
      (0.1, 2.0); (0.1, 0.9); (28, 36); (20, 35) ]%float
  = true.
Proof. vm_compute. reflexivity. Qed.

(** ** Whole runs *)

(** Both pipelines on disk, no upload, the button pressed: the page shows
    the one-row table, both metrics, the five lines and the chart. *)
Lemma dashboard_run :
  dashboard full_disk unpickle parse_csv mean_seq default_controls None true
  = ([ EvTitle "🚗 EV Predictive Maintenance Dashboard";
       EvMarkdown "### Predict vehicle health, maintenance, and warranty eligibility with live sensor data integration.";
       EvSidebarHeader "⚙️ Manual Vehicle Data Input";
       EvHeader "📁 Upload EV Sensor Data (CSV)";
       EvHeader "🔮 Predict Maintenance Needs";
       EvDataframe
         {| columns := result_columns;
            rows := [[ CFloat 300; CFloat 0.3; CFloat (1 - 0.3)%float;
                       CStr "❌ Rejected" ]] |};
       EvMetric "🕒 Avg Remaining Useful Life (days)" (SInt 300) "";
       EvMetric "⚠️ Avg Failure Probability" (SFixed 1 (0.3 * 100)%float) "%";
       EvMarkdown "### 🛠️ Recommended Maintenance";
       EvLine "Next **battery health check**" 100 "days";
       EvLine "**Brake service**" 150 "days";
       EvLine "**Tire rotation**" 20 "km";
       EvLine "**Cooling system inspection**" 75 "days";
       EvLine "**Motor vibration check**" 60 "days";
       EvBarChart [ ("Battery"%string, 100%float); ("Brakes"%string, 150%float);
                    ("Tires"%string, 20%float); ("Motor"%string, 75%float);
                    ("Cooling"%string, 60%float) ] ],
     Ok tt).
Proof. vm_compute. reflexivity. Qed.

(** An upload with a foreign column reaches the pipelines unvalidated; a
    pipeline that refuses the 25-column batch raises inside the [try],
    and the run ends with the error on the page. *)
Lemma foreign_upload_fails_in_prediction :
  tab2 mean_seq true (Some (fitted_model 300 0.3)) (Some (fitted_model 300 0.3))
       (manual_input default_controls) (Some foreign_upload) 20000
  = ([ EvHeader "🔮 Predict Maintenance Needs";
       EvError "❌ Error during prediction: columns are missing or unexpected" ],
     Ok tt).
Proof. vm_compute. reflexivity. Qed.

(** An upload that does not parse, both pipelines on disk, the button
    pressed: the parse error is shown and the prediction runs on the
    manual row alone. *)
Lemma dashboard_unparsable_upload :
  dashboard full_disk unpickle parse_csv mean_seq default_controls
            (Some ""%string) true
  = ([ EvTitle "🚗 EV Predictive Maintenance Dashboard";
       EvMarkdown "### Predict vehicle health, maintenance, and warranty eligibility with live sensor data integration.";
       EvSidebarHeader "⚙️ Manual Vehicle Data Input";
       EvHeader "📁 Upload EV Sensor Data (CSV)";
       EvError "❌ Error reading CSV: No columns to parse from file";
       EvHeader "🔮 Predict Maintenance Needs";
       EvDataframe
         {| columns := result_columns;
            rows := [[ CFloat 300; CFloat 0.3; CFloat (1 - 0.3)%float;
                       CStr "❌ Rejected" ]] |};
       EvMetric "🕒 Avg Remaining Useful Life (days)" (SInt 300) "";
       EvMetric "⚠️ Avg Failure Probability" (SFixed 1 (0.3 * 100)%float) "%";
       EvMarkdown "### 🛠️ Recommended Maintenance";
       EvLine "Next **battery health check**" 100 "days";
       EvLine "**Brake service**" 150 "days";
       EvLine "**Tire rotation**" 20 "km";
       EvLine "**Cooling system inspection**" 75 "days";
       EvLine "**Motor vibration check**" 60 "days";
       EvBarChart [ ("Battery"%string, 100%float); ("Brakes"%string, 150%float);
                    ("Tires"%string, 20%float); ("Motor"%string, 75%float);
                    ("Cooling"%string, 60%float) ] ],
     Ok tt).
Proof. vm_compute. reflexivity. Qed.

(** * Further properties *)

(** ** Widget ranges *)

Lemma all_from_spec (f : Z -> bool) (n : nat) (z : Z) :
  all_from n z f = true ->
  forall k, z <= k < z + Z.of_nat n -> f k = true.
Proof.
  revert z; induction n as [|n IH]; intros z H k Hk; [lia|].
  simpl in H. destruct (f z) eqn:E; [|discriminate].
  destruct (Z.eq_dec k z) as [->|Hne]; [exact E|].
  apply (IH (z + 1) H). lia.
Qed.

Lemma zbetween_spec lo hi z : zbetween lo hi z = true -> lo <= z <= hi.
Proof. unfold zbetween. rewrite andb_true_iff. lia. Qed.

Ltac split_bounds H :=
  repeat match type of H with
         | _ && _ = true =>
             let H' := fresh "B" in
             apply andb_true_iff in H; destruct H as [H H']
         end.

Lemma in_bounds_percentages (c : controls) :
  in_bounds c = true ->
  0 <= soc c <= 100 /\ 0 <= soh c <= 100 /\ 0 <= brake_wear c <= 100.
Proof.
  unfold in_bounds. intros H. apply andb_true_iff in H. destruct H as [H _].
  unfold int_bounds in H. split_bounds H.
  split; [|split]; apply zbetween_spec; assumption.
Qed.

Lemma in_bounds_distance (c : controls) :
  in_bounds c = true -> 0 <= distance_traveled c <= 500000.
Proof.
  unfold in_bounds. intros H. apply andb_true_iff in H. destruct H as [H _].
  unfold int_bounds in H. split_bounds H.
  apply zbetween_spec; assumption.
Qed.

Lemma default_controls_in_bounds : in_bounds default_controls = true.
Proof. vm_compute. reflexivity. Qed.

(** ** Tire rotation *)

Lemma float_of_Z_to_Z (d : int) : float_of_Z (to_Z d) = of_uint63 d.
Proof.
  destruct (to_Z d) as [|p|p] eqn:E.
  - assert (d = 0%uint63) by (apply to_Z_inj; rewrite E; reflexivity).
    subst d. reflexivity.
  - unfold float_of_Z. now rewrite <- E, of_to_Z.
  - pose proof (to_Z_bounded d). lia.
Qed.

Lemma digits2_pos_size (p : positive) : digits2_pos p = Pos.size p.
Proof. induction p; simpl; congruence. Qed.

Lemma size_log2 (p : positive) : Zpos (Pos.size p) = Z.log2 (Zpos p) + 1.
Proof. destruct p; simpl; lia. Qed.

Lemma Zdigits2_53 (m : Z) :
  4503599627370496 <= m < 9007199254740992 -> Zdigits2 m = 53.
Proof.
  intros H. destruct m as [|p|p]; try lia.
  simpl. rewrite digits2_pos_size, size_log2.
  rewrite (Z.log2_unique (Zpos p) 52); [reflexivity|lia|].
  change (2 ^ 52) with 4503599627370496.
  change (2 ^ (52 + 1)) with 9007199254740992. exact H.
Qed.

Lemma shr_fexp_normal (m e : Z) :
  4503599627370496 <= m < 9007199254740992 ->
  -1074 <= e ->
  shr_fexp prec emax m e loc_Exact
  = ({| shr_m := m; shr_r := false; shr_s := false |}, e).
Proof.
  intros Hm He. unfold shr_fexp. rewrite (Zdigits2_53 m Hm).
  unfold fexp, SpecFloat.emin, prec, emax.
  replace (Z.max (53 + e - 53) (3 - 1024 - 53) - e) with 0 by lia.
  reflexivity.
Qed.

Lemma Prim2SF_normal (x r : float) (se : int) :
  PrimFloat.is_nan x = false ->
  PrimFloat.is_zero x = false ->
  PrimFloat.is_infinity x = false ->
  frshiftexp x = (r, se) ->
  4503599627370496 <= to_Z (normfr_mantissa r) < 9007199254740992 ->
  -1074 <= to_Z se - 2154 ->
  Prim2SF x
  = S754_finite (PrimFloat.get_sign x)
      (Z.to_pos (to_Z (normfr_mantissa r))) (to_Z se - 2154).
Proof.
  intros Hn Hz Hi Hf Hm He.
  unfold Prim2SF, Z.frexp. rewrite Hn, Hz, Hi, Hf.
  replace (Z.sub (Z.sub (to_Z se) shift) prec) with (to_Z se - 2154)
    by (unfold shift, prec; lia).
  rewrite (shr_fexp_normal _ _ Hm He). simpl shr_m.
  destruct (to_Z (normfr_mantissa r)) as [|p|p]; try lia. reflexivity.
Qed.

Lemma tire_ok63_sound (d : int) :
  tire_ok63 d = true ->
  py_int (truediv (to_Z d) 1000) = Ok (to_Z d / 1000).
Proof.
  unfold tire_ok63, truediv. rewrite float_of_Z_to_Z.
  change (float_of_Z 1000) with 1000%float.
  cbv zeta. set (x := (of_uint63 d / 1000)%float).
  destruct (PrimFloat.is_nan x) eqn:Hn; [discriminate|].
  destruct (PrimFloat.is_zero x) eqn:Hz.
  - intros H. apply Uint63.ltb_spec in H. change (to_Z 1000) with 1000 in H.
    pose proof (to_Z_bounded d).
    unfold py_int, Prim2SF. rewrite Hn, Hz.
    now rewrite Z.div_small by lia.
  - destruct (PrimFloat.is_infinity x) eqn:Hi; [discriminate|].
    destruct (frshiftexp x) as [r se] eqn:Hf.
    intros H. split_bounds H.
    apply Uint63.leb_spec in H. apply Uint63.ltb_spec in B3.
    apply negb_true_iff in B2.
    apply Uint63.leb_spec in B1. apply Uint63.leb_spec in B0.
    apply Uint63.eqb_spec in B.
    change (to_Z 4503599627370496) with 4503599627370496 in H.
    change (to_Z 9007199254740992) with 9007199254740992 in B3.
    change (to_Z 1080) with 1080 in B1.
    change (to_Z 2153) with 2153 in B0.
    assert (Hk : to_Z (2154 - se)%uint63 = 2154 - to_Z se).
    { rewrite Uint63.sub_spec. change (to_Z 2154) with 2154.
      apply Z.mod_small. pose proof wB_pos.
      change wB with 9223372036854775808. lia. }
    apply (f_equal to_Z) in B.
    rewrite Uint63.lsr_spec, Uint63.div_spec, Hk in B.
    change (to_Z 1000) with 1000 in B.
    unfold py_int.
    rewrite (Prim2SF_normal x r se Hn Hz Hi Hf (conj H B3)) by lia.
    rewrite B2.
    destruct (Z.leb_spec 0 (to_Z se - 2154)); [lia|].
    rewrite Z2Pos.id by lia.
    replace (- (to_Z se - 2154)) with (2154 - to_Z se) by lia.
    now rewrite B.
Qed.

Lemma all_from63_spec (f : int -> bool) (n : nat) (d : int) :
  all_from63 n d f = true ->
  to_Z d + Z.of_nat n <= 9223372036854775808 ->
  forall k, to_Z d <= k < to_Z d + Z.of_nat n -> f (of_Z k) = true.
Proof.
  revert d; induction n as [|n IH]; intros d H Hb k Hk; [lia|].
  simpl in H. destruct (f d) eqn:E; [|discriminate].
  destruct (Z.eq_dec k (to_Z d)) as [->|Hne]; [now rewrite of_to_Z|].
  assert (Hs : to_Z (d + 1)%uint63 = to_Z d + 1).
  { rewrite Uint63.add_spec. change (to_Z 1) with 1.
    apply Z.mod_small. pose proof (to_Z_bounded d).
    change wB with 9223372036854775808. lia. }
  apply (IH (d + 1)%uint63 H); rewrite Hs; lia.
Qed.

Lemma tire_range_checked : all_from63 (Z.to_nat 500001) 0 tire_ok63 = true.
Proof. vm_cast_no_check (eq_refl true). Qed.

Lemma tire_exact (z : Z) :
  0 <= z <= 500000 -> py_int (truediv z 1000) = Ok (z / 1000).
Proof.
  intros Hz.
  assert (Hto : to_Z (of_Z z) = z).
  { rewrite of_Z_spec. apply Z.mod_small.
    change wB with 9223372036854775808. lia. }
  rewrite <- Hto at 1 2. apply tire_ok63_sound.
  apply (all_from63_spec tire_ok63 _ 0%uint63 tire_range_checked).
  - rewrite Z2Nat.id by lia. change (to_Z 0) with 0. lia.
  - rewrite Z2Nat.id by lia. change (to_Z 0) with 0. lia.
Qed.

(** X7. For every distance the distance widget can return (0 to 500000),
    the tire-rotation line shows the integer quotient of the distance by
    1000, a number of km between 0 and 500: the rounding of the float
    division never moves [int()] off the whole number of thousands. *)
Theorem tire_rotation_whole_thousands :
  forall c : controls,
    in_bounds c = true ->
    write_interval "**Tire rotation**" (truediv (distance_traveled c) 1000) "km"
    = ([EvLine "**Tire rotation**" (distance_traveled c / 1000) "km"], Ok tt)
    /\ 0 <= distance_traveled c / 1000 <= 500.
Proof.
  intros c H. pose proof (in_bounds_distance c H) as Hd. split.
  - apply write_interval_ok, tire_exact. exact Hd.
  - split.
    + apply Z.div_pos; lia.
    + apply Z.div_le_upper_bound; lia.
Qed.

Lemma tire_rotation_whole_thousands_witness :
  write_interval "**Tire rotation**" (truediv 20000 1000) "km"
  = ([EvLine "**Tire rotation**" (20000 / 1000) "km"], Ok tt).
Proof.
  exact (proj1 (tire_rotation_whole_thousands default_controls
                  default_controls_in_bounds)).
Defined.

(** ** Percentages *)

Lemma fractions_checked : all_from 101 0 fraction_ok = true.
Proof. vm_compute. reflexivity. Qed.

Lemma slider_fraction (z : Z) :
  0 <= z <= 100 ->
  fbetween 0 1 (truediv z 100) = true /\
  (Qabs (Q_of_float (truediv z 100) - inject_Z z / 100) <= 1 # 18014398509481984)%Q /\
  (forall z', z < z' <= 100 -> (truediv z 100 <? truediv z' 100)%float = true).
Proof.
  intros Hz.
  pose proof (all_from_spec fraction_ok _ 0 fractions_checked z) as H.
  assert (Hok : fraction_ok z = true) by (apply H; simpl; lia).
  unfold fraction_ok in Hok.
  apply andb_true_iff in Hok. destruct Hok as [Hok Hord].
  apply andb_true_iff in Hok. destruct Hok as [Hb He].
  split; [exact Hb|]. split.
  - unfold percent_error_ok in He. now apply Qle_bool_iff in He.
  - intros z' Hz'.
    pose proof (all_from_spec _ _ 0 Hord z') as Hz2. simpl in Hz2.
    assert (Hlt : (z <? z') = true) by (apply Z.ltb_lt; lia).
    rewrite Hlt in Hz2. apply Hz2. lia.
Qed.

(** X8. With every control inside its widget's range, the three cells
    entered as percentages hold fractions between 0 and 1, each within
    2^-54 of the exact quotient by 100; and a higher slider position
    always stores a strictly larger fraction. *)
Theorem percentages_normalised :
  forall c : controls,
    in_bounds c = true ->
    (exists f_soc f_soh f_wear,
       df_at (manual_input c) 0 "SoC" = Some (CFloat f_soc) /\
       df_at (manual_input c) 0 "SoH" = Some (CFloat f_soh) /\
       df_at (manual_input c) 0 "Brake_Pad_Wear" = Some (CFloat f_wear) /\
       fbetween 0 1 f_soc = true /\
       fbetween 0 1 f_soh = true /\
       fbetween 0 1 f_wear = true /\
       (Qabs (Q_of_float f_soc - inject_Z (soc c) / 100) <= 1 # 18014398509481984)%Q /\
       (Qabs (Q_of_float f_soh - inject_Z (soh c) / 100) <= 1 # 18014398509481984)%Q /\
       (Qabs (Q_of_float f_wear - inject_Z (brake_wear c) / 100) <= 1 # 18014398509481984)%Q)
    /\
    (forall z z', 0 <= z -> z < z' -> z' <= 100 ->
       (truediv z 100 <? truediv z' 100)%float = true).
Proof.
  intros c H.
  destruct (in_bounds_percentages c H) as [H1 [H2 H3]].
  destruct (slider_fraction _ H1) as [A1 [A2 _]].
  destruct (slider_fraction _ H2) as [B1 [B2 _]].
  destruct (slider_fraction _ H3) as [C1 [C2 _]].
  split.
  - exists (truediv (soc c) 100), (truediv (soh c) 100),
      (truediv (brake_wear c) 100).
    repeat split; assumption.
  - intros z z' Hz Hlt Hz'.
    assert (Hr : 0 <= z <= 100) by lia.
    destruct (slider_fraction z Hr) as [_ [_ Hord]].
    apply Hord. lia.
Qed.

Lemma percentages_normalised_witness :
  exists f_soc f_soh f_wear,
    df_at (manual_input default_controls) 0 "SoC" = Some (CFloat f_soc) /\
    df_at (manual_input default_controls) 0 "SoH" = Some (CFloat f_soh) /\
    df_at (manual_input default_controls) 0 "Brake_Pad_Wear" = Some (CFloat f_wear) /\
    fbetween 0 1 f_soc = true /\
    fbetween 0 1 f_soh = true /\
    fbetween 0 1 f_wear = true /\
    (Qabs (Q_of_float f_soc - inject_Z 80 / 100) <= 1 # 18014398509481984)%Q /\
    (Qabs (Q_of_float f_soh - inject_Z 95 / 100) <= 1 # 18014398509481984)%Q /\
    (Qabs (Q_of_float f_wear - inject_Z 20 / 100) <= 1 # 18014398509481984)%Q.
Proof.
  exact (proj1 (percentages_normalised default_controls
                  default_controls_in_bounds)).
Defined.

(** ** The batch handed to the models *)

Lemma reindex_length from to r :
  List.length (reindex from to r) = List.length to.
Proof. unfold reindex. apply length_map. Qed.

Lemma pd_concat_wf (a b : DataFrame) : wf_frame (pd_concat a b).
Proof.
  unfold wf_frame. simpl. apply Forall_app. split.
  - apply Forall_map, Forall_forall. intros r _. apply reindex_length.
  - apply Forall_map, Forall_forall. intros r _. apply reindex_length.
Qed.

(** X1. Whatever was uploaded (nothing, a table with any columns, even
    a ragged one), the batch handed to the models is rectangular, has at
    least one row, has the 24 features as its first 24 columns in the
    order of the feature list, and carries the manual values in row 0. *)
Theorem batch_invariant :
  forall (c : controls) (csv_data : option DataFrame),
    wf_frame (input_data (manual_input c) csv_data) /\
    (1 <= List.length (rows (input_data (manual_input c) csv_data)))%nat /\
    firstn 24 (columns (input_data (manual_input c) csv_data)) = features /\
    (forall name, In name features ->
       df_at (input_data (manual_input c) csv_data) 0 name
       = df_at (manual_input c) 0 name).
Proof.
  intros c [csv|]; simpl input_data.
  - split; [apply pd_concat_wf|]. split; [simpl; lia|].
    split; [reflexivity|].
    intros name Hin.
    apply df_at_concat_left; [apply manual_input_wf|exact Hin|simpl; lia].
  - split; [apply manual_input_wf|]. split; [simpl; lia|].
    split; [reflexivity|]. reflexivity.
Qed.

(** ** A parsed upload *)

(** X2. When the upload parses, tab 1 shows the success message and a
    preview of at most the first five rows, while the whole table is what
    it hands on: the batch then has one row more than the upload,
    previewed or not. *)
Theorem parsed_upload_previewed_and_kept :
  forall (read_csv : string -> outcome DataFrame) (file : string)
         (csv : DataFrame) (c : controls),
    read_csv file = Ok csv ->
    tab1 read_csv (Some file)
    = ([ EvHeader "📁 Upload EV Sensor Data (CSV)";
         EvSuccess "✅ CSV Loaded Successfully";
         EvDataframe (head csv) ], Ok (Some csv))
    /\ rows (head csv) = firstn 5 (rows csv)
    /\ List.length (rows (head csv)) = Nat.min 5 (List.length (rows csv))
    /\ columns (head csv) = columns csv
    /\ List.length (rows (input_data (manual_input c) (Some csv)))
       = S (List.length (rows csv)).
Proof.
  intros read_csv file csv c H. split.
  { unfold tab1. rewrite H. reflexivity. }
  split; [reflexivity|]. split; [apply length_firstn|].
  split; [reflexivity|].
  simpl. now rewrite length_map.
Qed.

Lemma parsed_upload_previewed_and_kept_witness :
  tab1 parse_csv (Some "a,b"%string)
  = ([ EvHeader "📁 Upload EV Sensor Data (CSV)";
       EvSuccess "✅ CSV Loaded Successfully";
       EvDataframe (head foreign_upload) ], Ok (Some foreign_upload)).
Proof.
  exact (proj1 (parsed_upload_previewed_and_kept parse_csv "a,b"%string
                  foreign_upload default_controls eq_refl)).
Defined.

(** ** What the prediction puts on the page *)

Lemma summary_events_plain avg_rul avg_failure distance :
  forallb (fun ev => negb (is_error ev) && negb (is_table ev))
          (events (summary avg_rul avg_failure distance)) = true.
Proof.
  unfold summary, recommended_maintenance, write_interval.
  destruct (py_int avg_rul); [|reflexivity].
  destruct (py_int (avg_rul / 3)); [|reflexivity].
  destruct (py_int (avg_rul / 2)); [|reflexivity].
  destruct (py_int (truediv distance 1000)); [|reflexivity].
  destruct (py_int (avg_rul / 4)); [|reflexivity].
  destruct (py_int (avg_rul / 5)); reflexivity.
Qed.

Section PredictionRun.

Variable np_mean : list float -> float.

(** The prediction either raises before anything is shown, or shows the
    table for predictions of the right length and goes on to the summary. *)
Lemma run_prediction_cases rul_model failure_model manual csv_data distance :
  (exists e,
     run_prediction np_mean rul_model failure_model manual csv_data distance
     = ([], Raise e))
  \/
  (exists rul_predictions proba,
     call_predict rul_model (input_data manual csv_data) = Ok rul_predictions /\
     call_predict_proba failure_model (input_data manual csv_data) = Ok proba /\
     List.length rul_predictions = List.length (rows (input_data manual csv_data)) /\
     List.length proba = List.length (rows (input_data manual csv_data)) /\
     run_prediction np_mean rul_model failure_model manual csv_data distance
     = (EvDataframe (results rul_predictions (map snd proba))
          :: events (summary (np_mean rul_predictions)
                             (np_mean (map snd proba)) distance),
        result (summary (np_mean rul_predictions)
                        (np_mean (map snd proba)) distance))).
Proof.
  unfold run_prediction. cbv zeta.
  destruct (call_predict rul_model _) as [rp|e]; [|left; eexists; reflexivity].
  destruct (call_predict_proba failure_model _) as [pr|e]; [|left; eexists; reflexivity].
  unfold check_length, lift, bind, emit. cbv beta iota zeta.
  rewrite length_map.
  destruct (Nat.eqb_spec (List.length rp)
              (List.length (rows (input_data manual csv_data)))) as [E1|_];
    [|left; eexists; reflexivity].
  destruct (Nat.eqb_spec (List.length pr)
              (List.length (rows (input_data manual csv_data)))) as [E2|_];
    [|left; eexists; reflexivity].
  right. exists rp, pr. repeat split; trivial.
  unfold events, result.
  now destruct (summary _ _ _) as [l r].
Qed.

Lemma run_prediction_no_error rul_model failure_model manual csv_data distance :
  existsb is_error
    (events (run_prediction np_mean rul_model failure_model manual csv_data distance))
  = false.
Proof.
  destruct (run_prediction_cases rul_model failure_model manual csv_data distance)
    as [[e ->]|[rp [pr [_ [_ [_ [_ ->]]]]]]]; [reflexivity|].
  unfold events at 1. simpl.
  pose proof (summary_events_plain (np_mean rp) (np_mean (map snd pr)) distance) as H.
  induction (events (summary (np_mean rp) (np_mean (map snd pr)) distance))
    as [|ev l IH]; [reflexivity|].
  simpl in H |- *. apply andb_true_iff in H. destruct H as [Hev Hl].
  apply andb_true_iff in Hev. destruct Hev as [Hev _].
  destruct (is_error ev); [discriminate|]. now apply IH.
Qed.

Lemma tab2_page rul_model failure_model manual csv_data distance :
  tab2 np_mean true (Some rul_model) (Some failure_model) manual csv_data distance
  = ((EvHeader "🔮 Predict Maintenance Needs"
        :: events (run_prediction np_mean (Some rul_model) (Some failure_model)
                     manual csv_data distance)
        ++ match result (run_prediction np_mean (Some rul_model) (Some failure_model)
                           manual csv_data distance) with
           | Ok _ => []
           | Raise e => [EvError ("❌ Error during prediction: " ++ e)]
           end)%list,
     Ok tt).
Proof.
  unfold tab2. simpl truthy. simpl andb. cbv iota.
  destruct (run_prediction np_mean (Some rul_model) (Some failure_model)
              manual csv_data distance) as [l [[]|e]];
    unfold try_except, bind, emit, events, result; simpl.
  - now rewrite app_nil_r.
  - reflexivity.
Qed.

End PredictionRun.

Lemma results_rows_are_result_rows rul_predictions failure_predictions i row :
  nth_error (rows (results rul_predictions failure_predictions)) i = Some row ->
  exists rul p, row = result_row rul p.
Proof.
  simpl. rewrite nth_error_map.
  destruct (nth_error (combine rul_predictions failure_predictions) i)
    as [[rul p]|]; [|discriminate].
  intros [= <-]. now exists rul, p.
Qed.

Lemma table_only_from_results np_mean rul_model failure_model manual csv_data
      distance t :
  In (EvDataframe t)
     (events (run_prediction np_mean rul_model failure_model manual csv_data distance)) ->
  exists (rul_predictions : list float) (proba : list (float * float)),
    t = results rul_predictions (map snd proba) /\
    List.length rul_predictions = List.length (rows (input_data manual csv_data)) /\
    List.length proba = List.length (rows (input_data manual csv_data)).
Proof.
  destruct (run_prediction_cases np_mean rul_model failure_model manual csv_data distance)
    as [[e ->]|[rp [pr [_ [_ [L1 [L2 ->]]]]]]]; [intros []|].
  unfold events at 1. simpl. intros [[= <-]|H]; [now exists rp, pr|].
  exfalso.
  pose proof (summary_events_plain (np_mean rp) (np_mean (map snd pr)) distance) as Hp.
  rewrite forallb_forall in Hp. specialize (Hp _ H). discriminate.
Qed.

(** X3. Whenever the prediction tab shows a table, the table has the four
    result columns, exactly one row per row of the batch, four cells in
    every row, and in every row the vehicle health is 1 minus the failure
    probability of that same row. *)
Theorem shown_table_shape :
  forall (np_mean : list float -> float) (button : bool)
         (rul_model failure_model : option Model)
         (manual : DataFrame) (csv_data : option DataFrame) (distance : Z)
         (t : DataFrame),
    In (EvDataframe t)
       (events (tab2 np_mean button rul_model failure_model manual csv_data distance)) ->
    columns t = result_columns /\
    List.length (rows t) = List.length (rows (input_data manual csv_data)) /\
    wf_frame t /\
    (forall i p,
       df_at t i "Failure_Probability" = Some (CFloat p) ->
       df_at t i "Vehicle_Health" = Some (CFloat (1 - p)%float)).
Proof.
  intros np_mean button rm fm manual csv d t H.
  assert (Hrun : In (EvDataframe t)
                    (events (run_prediction np_mean rm fm manual csv d))).
  { destruct button; [|destruct H as [H|[]]; discriminate].
    destruct rm as [rm|]; [|destruct H as [H|[]]; discriminate].
    destruct fm as [fm|]; [|destruct H as [H|[]]; discriminate].
    rewrite tab2_page in H. unfold events at 1 in H. simpl in H.
    destruct H as [H|H]; [discriminate|].
    apply in_app_or in H. destruct H as [H|H]; [exact H|].
    destruct (result _) as [[]|e]; simpl in H; [tauto|].
    destruct H as [H|[]]; discriminate. }
  destruct (table_only_from_results _ _ _ _ _ _ _ Hrun)
    as [rp [pr [-> [L1 L2]]]].
  split; [reflexivity|]. split.
  { simpl. rewrite length_map, length_combine, length_map, L1, L2.
    apply Nat.min_id. }
  split.
  { unfold wf_frame. simpl. apply Forall_map, Forall_forall.
    intros rp' _. reflexivity. }
  intros i p. unfold df_at.
  destruct (nth_error (rows (results rp (map snd pr))) i) as [row|] eqn:E;
    [|discriminate].
  destruct (results_rows_are_result_rows _ _ _ _ E) as [rul [p' ->]].
  simpl. now intros [= ->].
Qed.

Lemma shown_table_shape_witness :
  List.length (rows (results [300%float] [0.3%float]))
  = List.length (rows (input_data (manual_input default_controls) None)).
Proof.
  refine (proj1 (proj2
    (shown_table_shape mean_seq true
       (Some (constant_model 300 0.3)) (Some (constant_model 300 0.3))
       (manual_input default_controls) None 20000
       (results [300%float] [0.3%float]) _))).
  right; left; reflexivity.
Defined.

(** X4. With both models loaded and the button pressed, the prediction
    tab is its header, then whatever the prediction had shown before it
    ended, then, exactly when the prediction raised, one error message
    with the exception's text; the prediction itself never shows an error
    message, and the tab never raises. *)
Theorem prediction_error_shown_iff_raised :
  forall (np_mean : list float -> float) (rul_model failure_model : Model)
         (manual : DataFrame) (csv_data : option DataFrame) (distance : Z),
    tab2 np_mean true (Some rul_model) (Some failure_model) manual csv_data distance
    = ((EvHeader "🔮 Predict Maintenance Needs"
          :: events (run_prediction np_mean (Some rul_model) (Some failure_model)
                       manual csv_data distance)
          ++ match result (run_prediction np_mean (Some rul_model)
                             (Some failure_model) manual csv_data distance) with
             | Ok _ => []
             | Raise e => [EvError ("❌ Error during prediction: " ++ e)]
             end)%list,
       Ok tt)
    /\
    existsb is_error
      (events (run_prediction np_mean (Some rul_model) (Some failure_model)
                 manual csv_data distance))
    = false.
Proof.
  intros. split; [apply tab2_page|apply run_prediction_no_error].
Qed.

Lemma py_int_not_finite (f : float) :
  is_finite f = false ->
  exists msg,
    py_int f = Raise msg /\
    (msg = "cannot convert float NaN to integer"%string \/
     msg = "cannot convert float infinity to integer"%string).
Proof.
  unfold is_finite, py_int.
  destruct (Prim2SF f); try discriminate; eauto.
Qed.

(** X5. If the average of the predicted RULs is NaN or infinite, the
    table is still shown, but neither metric, no recommendation and no
    chart: the tab ends with "Error during prediction" and the text of
    the failed [int()] conversion. *)
Theorem nonfinite_average_stops_after_table :
  forall (np_mean : list float -> float) (rul_model failure_model : Model)
         (manual : DataFrame) (csv_data : option DataFrame) (distance : Z)
         (rul_predictions : list float) (proba : list (float * float)),
    predict rul_model (input_data manual csv_data) = Ok rul_predictions ->
    predict_proba failure_model (input_data manual csv_data) = Ok proba ->
    List.length rul_predictions = List.length (rows (input_data manual csv_data)) ->
    List.length proba = List.length (rows (input_data manual csv_data)) ->
    is_finite (np_mean rul_predictions) = false ->
    exists msg,
      (msg = "cannot convert float NaN to integer"%string \/
       msg = "cannot convert float infinity to integer"%string) /\
      tab2 np_mean true (Some rul_model) (Some failure_model) manual csv_data distance
      = ([ EvHeader "🔮 Predict Maintenance Needs";
           EvDataframe (results rul_predictions (map snd proba));
           EvError ("❌ Error during prediction: " ++ msg) ], Ok tt).
Proof.
  intros np_mean rm fm manual csv d rp pr Hr Hp L1 L2 Hfin.
  destruct (py_int_not_finite _ Hfin) as [msg [Hmsg Hcase]].
  exists msg. split; [exact Hcase|].
  rewrite tab2_page.
  assert (E : run_prediction np_mean (Some rm) (Some fm) manual csv d
              = ([EvDataframe (results rp (map snd pr))], Raise msg)).
  { unfold run_prediction. cbv zeta. simpl call_predict. simpl call_predict_proba.
    rewrite Hr, Hp. unfold check_length, lift, bind, emit.
    cbv beta iota zeta. rewrite length_map, L1, L2, Nat.eqb_refl.
    unfold summary, lift, bind. rewrite Hmsg. reflexivity. }
  rewrite E. reflexivity.
Qed.

Lemma nonfinite_average_stops_after_table_witness :
  exists msg,
    (msg = "cannot convert float NaN to integer"%string \/
     msg = "cannot convert float infinity to integer"%string) /\
    tab2 mean_seq true (Some (constant_model nan 0.3)) (Some (constant_model nan 0.3))
         (manual_input default_controls) None 20000
    = ([ EvHeader "🔮 Predict Maintenance Needs";
         EvDataframe (results [nan] (map snd [((1 - 0.3)%float, 0.3%float)]));
         EvError ("❌ Error during prediction: " ++ msg) ], Ok tt).
Proof.
  exact (nonfinite_average_stops_after_table mean_seq
           (constant_model nan 0.3) (constant_model nan 0.3)
           (manual_input default_controls) None 20000
           [nan] [((1 - 0.3)%float, 0.3%float)]
           eq_refl eq_refl eq_refl eq_refl eq_refl).
Defined.

(** ** Chart labels against the recommendation lines *)

Lemma summary_lines avg_rul avg_failure distance label z unit_ :
  In (EvLine label z unit_) (events (summary avg_rul avg_failure distance)) ->
  In (EvBarChart (interval_chart avg_rul distance))
     (events (summary avg_rul avg_failure distance))
  \/ label <> "**Motor vibration check**"%string.
Proof.
  unfold summary, recommended_maintenance, write_interval, lift, bind, emit, events.
  destruct (py_int avg_rul) as [a|]; [|intros []].
  destruct (py_int (avg_rul / 3)) as [b|];
    [|simpl; intros H; right; intros ->; intuition discriminate].
  destruct (py_int (avg_rul / 2)) as [br|];
    [|simpl; intros H; right; intros ->; intuition discriminate].
  destruct (py_int (truediv distance 1000)) as [t|];
    [|simpl; intros H; right; intros ->; intuition discriminate].
  destruct (py_int (avg_rul / 4)) as [c|];
    [|simpl; intros H; right; intros ->; intuition discriminate].
  destruct (py_int (avg_rul / 5)) as [m|];
    [|simpl; intros H; right; intros ->; intuition discriminate].
  intros _. left. simpl. intuition.
Qed.

Lemma summary_line_value avg_rul avg_failure distance label z unit_ :
  In (EvLine label z unit_) (events (summary avg_rul avg_failure distance)) ->
  (label = "**Cooling system inspection**"%string -> py_int (avg_rul / 4) = Ok z) /\
  (label = "**Motor vibration check**"%string -> py_int (avg_rul / 5) = Ok z).
Proof.
  unfold summary, recommended_maintenance, write_interval, lift, bind, emit, events.
  destruct (py_int avg_rul) as [a|]; [|intros []].
  destruct (py_int (avg_rul / 3)) as [b|];
    [|simpl; intros H; split; intros ->; intuition discriminate].
  destruct (py_int (avg_rul / 2)) as [br|];
    [|simpl; intros H; split; intros ->; intuition discriminate].
  destruct (py_int (truediv distance 1000)) as [t|];
    [|simpl; intros H; split; intros ->; intuition discriminate].
  destruct (py_int (avg_rul / 4)) as [c|];
    [|simpl; intros H; split; intros ->; intuition discriminate].
  destruct (py_int (avg_rul / 5)) as [m|]; simpl; intros H; split; intros ->;
    intuition (try discriminate; congruence).
Qed.

(** X6. The chart and the recommendation lines disagree on two labels.
    Whenever the lines for the cooling-system inspection and the motor
    vibration check are shown, the chart is shown too; the number on the
    cooling line is [int()] of avg/4, which the chart draws as its Motor
    bar, and the number on the motor line is [int()] of avg/5, which the
    chart draws as its Cooling bar. *)
Theorem chart_swaps_motor_and_cooling :
  forall (avg_rul avg_failure : float) (distance : Z) (cooling motor : Z),
    In (EvLine "**Cooling system inspection**" cooling "days")
       (events (summary avg_rul avg_failure distance)) ->
    In (EvLine "**Motor vibration check**" motor "days")
       (events (summary avg_rul avg_failure distance)) ->
    In (EvBarChart (interval_chart avg_rul distance))
       (events (summary avg_rul avg_failure distance)) /\
    py_int (avg_rul / 4)%float = Ok cooling /\
    py_int (avg_rul / 5)%float = Ok motor /\
    (forall v, In ("Motor"%string, v) (interval_chart avg_rul distance)
               <-> v = (avg_rul / 4)%float) /\
    (forall v, In ("Cooling"%string, v) (interval_chart avg_rul distance)
               <-> v = (avg_rul / 5)%float).
Proof.
  intros avg af d cooling motor Hc Hm.
  split.
  { destruct (summary_lines _ _ _ _ _ _ Hm) as [H|H]; [exact H|congruence]. }
  split; [now apply (summary_line_value _ _ _ _ _ _ Hc)|].
  split; [now apply (summary_line_value _ _ _ _ _ _ Hm)|].
  split; intros v; simpl; split.
  - intuition (try discriminate; congruence).
  - intros ->. tauto.
  - intuition (try discriminate; congruence).
  - intros ->. tauto.
Qed.

Lemma chart_swaps_motor_and_cooling_witness :
  In (EvBarChart (interval_chart 300 20000)) (events (summary 300 0.3 20000)) /\
  py_int (300 / 4)%float = Ok 75 /\
  py_int (300 / 5)%float = Ok 60 /\
  (forall v, In ("Motor"%string, v) (interval_chart 300 20000)
             <-> v = (300 / 4)%float) /\
  (forall v, In ("Cooling"%string, v) (interval_chart 300 20000)
             <-> v = (300 / 5)%float).
Proof.
  apply (chart_swaps_motor_and_cooling 300 0.3 20000 75 60).
  - vm_compute. tauto.
  - vm_compute. tauto.
Defined.

(** ** The script as a whole *)

Lemma tab1_returns (read_csv : string -> outcome DataFrame) uploaded_file :
  exists csv_data, result (tab1 read_csv uploaded_file) = Ok csv_data.
Proof.
  unfold tab1. destruct uploaded_file as [file|]; [|now exists None].
  destruct (read_csv file) as [csv|e]; eexists; reflexivity.
Qed.

Lemma dashboard_returns_when_loaded
      (fs : string -> option string) (joblib_load : string -> outcome Model)
      (read_csv : string -> outcome DataFrame) (np_mean : list float -> float)
      (c : controls) (uploaded_file : option string) (button : bool)
      (rul_model failure_model : option Model) :
  result (load_model fs joblib_load RUL_MODEL_PATH) = Ok rul_model ->
  result (load_model fs joblib_load FAILURE_MODEL_PATH) = Ok failure_model ->
  result (dashboard fs joblib_load read_csv np_mean c uploaded_file button) = Ok tt.
Proof.
  intros H1 H2.
  destruct (tab1_returns read_csv uploaded_file) as [csv H3].
  pose proof (tab2_never_raises np_mean button rul_model failure_model
                (manual_input c) csv (distance_traveled c)) as H4.
  unfold dashboard.
  destruct (load_model fs joblib_load RUL_MODEL_PATH) as [l1 r1].
  destruct (load_model fs joblib_load FAILURE_MODEL_PATH) as [l2 r2].
  destruct (tab1 read_csv uploaded_file) as [l3 r3].
  unfold result in *. simpl in H1, H2, H3. subst r1 r2 r3.
  unfold bind, emit. cbv beta iota.
  destruct (tab2 np_mean button rul_model failure_model (manual_input c) csv
              (distance_traveled c)) as [l4 r4].
  simpl in H4. subst r4. reflexivity.
Qed.

(** X9. When both load steps return (each file is missing or unpickles),
    the script returns normally whatever is uploaded, whatever the models
    do and whether or not the button is pressed, and its page is, in this
    order: what the two loads showed, the title, the subtitle, the sidebar
    header, tab 1 and tab 2, tab 2 being given the two loaded models, the
    manual row, what tab 1 returned and the distance control. *)
Theorem dashboard_page_in_order :
  forall (fs : string -> option string)
         (joblib_load : string -> outcome Model)
         (read_csv : string -> outcome DataFrame)
         (np_mean : list float -> float)
         (c : controls) (uploaded_file : option string) (button : bool)
         (rul_model failure_model : option Model),
    result (load_model fs joblib_load RUL_MODEL_PATH) = Ok rul_model ->
    result (load_model fs joblib_load FAILURE_MODEL_PATH) = Ok failure_model ->
    exists csv_data,
      result (tab1 read_csv uploaded_file) = Ok csv_data /\
      dashboard fs joblib_load read_csv np_mean c uploaded_file button
      = ((events (load_model fs joblib_load RUL_MODEL_PATH)
          ++ events (load_model fs joblib_load FAILURE_MODEL_PATH)
          ++ [ EvTitle "🚗 EV Predictive Maintenance Dashboard";
               EvMarkdown "### Predict vehicle health, maintenance, and warranty eligibility with live sensor data integration.";
               EvSidebarHeader "⚙️ Manual Vehicle Data Input" ]
          ++ events (tab1 read_csv uploaded_file)
          ++ events (tab2 np_mean button rul_model failure_model
                       (manual_input c) csv_data (distance_traveled c)))%list,
         Ok tt).
Proof.
  intros fs jl rc np_mean c up button rm fm H1 H2.
  destruct (tab1_returns rc up) as [csv H3]. exists csv. split; [exact H3|].
  pose proof (tab2_never_raises np_mean button rm fm (manual_input c) csv
                (distance_traveled c)) as H4.
  unfold dashboard.
  destruct (load_model fs jl RUL_MODEL_PATH) as [l1 r1].
  destruct (load_model fs jl FAILURE_MODEL_PATH) as [l2 r2].
  destruct (tab1 rc up) as [l3 r3].
  unfold result, events in *. simpl in H1, H2, H3. subst r1 r2 r3.
  unfold bind, emit. cbv beta iota.
  destruct (tab2 np_mean button rm fm (manual_input c) csv (distance_traveled c))
    as [l4 r4].
  simpl in H4. subst r4. reflexivity.
Qed.

Lemma dashboard_page_in_order_witness :
  exists csv_data,
    result (tab1 parse_csv None) = Ok csv_data /\
    dashboard empty_disk unpickle parse_csv mean_seq default_controls None true
    = ((events (load_model empty_disk unpickle RUL_MODEL_PATH)
        ++ events (load_model empty_disk unpickle FAILURE_MODEL_PATH)
        ++ [ EvTitle "🚗 EV Predictive Maintenance Dashboard";
             EvMarkdown "### Predict vehicle health, maintenance, and warranty eligibility with live sensor data integration.";
             EvSidebarHeader "⚙️ Manual Vehicle Data Input" ]
        ++ events (tab1 parse_csv None)
        ++ events (tab2 mean_seq true None None
                     (manual_input default_controls) csv_data
                     (distance_traveled default_controls)))%list,
       Ok tt).
Proof.
  exact (dashboard_page_in_order empty_disk unpickle parse_csv mean_seq
           default_controls None true None None eq_refl eq_refl).
Defined.

(** X10. The only exception that leaves the script is one raised by
    unpickling a model file that exists; when that happens nothing but
    the sidebar errors of the load steps has been put on the page. *)
Theorem dashboard_raises_only_from_unpickling :
  forall (fs : string -> option string)
         (joblib_load : string -> outcome Model)
         (read_csv : string -> outcome DataFrame)
         (np_mean : list float -> float)
         (c : controls) (uploaded_file : option string) (button : bool)
         (e : exn),
    result (dashboard fs joblib_load read_csv np_mean c uploaded_file button)
    = Raise e ->
    (exists path contents,
       (path = RUL_MODEL_PATH \/ path = FAILURE_MODEL_PATH) /\
       fs path = Some contents /\
       joblib_load contents = Raise e)
    /\
    (forall ev,
       In ev (events (dashboard fs joblib_load read_csv np_mean c uploaded_file button)) ->
       exists msg, ev = EvSidebarError msg).
Proof.
  intros fs jl rc np_mean c up button e H.
  destruct (result (load_model fs jl RUL_MODEL_PATH)) as [rm|e1] eqn:E1.
  - destruct (result (load_model fs jl FAILURE_MODEL_PATH)) as [fm|e2] eqn:E2.
    + rewrite (dashboard_returns_when_loaded fs jl rc np_mean c up button
                 rm fm E1 E2) in H.
      discriminate.
    + assert (Hd : dashboard fs jl rc np_mean c up button
                   = (events (load_model fs jl RUL_MODEL_PATH), Raise e2)).
      { unfold dashboard.
        destruct (fs FAILURE_MODEL_PATH) as [c2|] eqn:F2.
        - rewrite (load_model_present fs jl _ _ F2) in E2 |- *.
          destruct (jl c2) as [m|e']; [discriminate|].
          simpl in E2. injection E2 as ->.
          destruct (load_model fs jl RUL_MODEL_PATH) as [l1 r1].
          simpl in E1. subst r1. simpl. now rewrite app_nil_r.
        - rewrite (load_model_missing fs jl _ F2) in E2. discriminate. }
      rewrite Hd in H |- *. simpl in H. injection H as ->. split.
      * exists FAILURE_MODEL_PATH.
        destruct (fs FAILURE_MODEL_PATH) as [c2|] eqn:F2.
        -- exists c2. split; [now right|]. split; [reflexivity|].
           rewrite (load_model_present fs jl _ _ F2) in E2.
           destruct (jl c2); [discriminate|]. simpl in E2. congruence.
        -- rewrite (load_model_missing fs jl _ F2) in E2. discriminate.
      * intros ev Hev. simpl in Hev.
        destruct (fs RUL_MODEL_PATH) as [c1|] eqn:F1.
        -- rewrite (load_model_present fs jl _ _ F1) in Hev. destruct Hev.
        -- rewrite (load_model_missing fs jl _ F1) in Hev.
           destruct Hev as [<-|[]]. eauto.
  - destruct (fs RUL_MODEL_PATH) as [c1|] eqn:F1.
    + assert (Hj : jl c1 = Raise e1).
      { rewrite (load_model_present fs jl _ _ F1) in E1.
        destruct (jl c1); [discriminate|]. simpl in E1. congruence. }
      assert (Hd : dashboard fs jl rc np_mean c up button = ([], Raise e1)).
      { unfold dashboard. rewrite (load_model_present fs jl _ _ F1), Hj.
        reflexivity. }
      rewrite Hd in H |- *. simpl in H. injection H as ->. split.
      * exists RUL_MODEL_PATH, c1. split; [now left|]. now split.
      * intros ev [].
    + rewrite (load_model_missing fs jl _ F1) in E1. discriminate.
Qed.

Lemma dashboard_raises_only_from_unpickling_witness :
  exists path contents,
    (path = RUL_MODEL_PATH \/ path = FAILURE_MODEL_PATH) /\
    truncated_disk path = Some contents /\
    unpickle contents = Raise "Ran out of input"%string.
Proof.
  exact (proj1 (dashboard_raises_only_from_unpickling truncated_disk unpickle
                  parse_csv mean_seq default_controls None true
                  "Ran out of input"%string eq_refl)).
Defined.

(** ** Draws of the live console *)




